(** * telegram-dexswap: the token alert pipeline of [main.py]

    A shallow embedding of the polling bot: JSON payloads as a value type,
    Python floats as IEEE 754 binary64 ([spec_float] at precision 53),
    exceptions as an error monad, the network as explicit answers, and the
    global [known_tokens] list as explicit state. *)

From Stdlib Require Import ZArith List Bool Ascii String Lia.
From Stdlib Require Import Floats.SpecFloat.
Import ListNotations.

Local Open Scope Z_scope.
Local Open Scope string_scope.

Local Set Warnings "-register-all".

(** ** Python values reaching the bot through [response.json()] *)

(** A decoded JSON document.  A [dict] keeps its insertion order and its keys
    are strings; [JDict] lists the items in that order and a lookup takes the
    first item with the key. *)
Inductive value : Type :=
| JNull
| JBool (b : bool)
| JInt (z : Z)
| JFloat (f : spec_float)
| JStr (s : string)
| JList (l : list value)
| JDict (d : list (string * value)).

(** The exception classes the code meets: those its [except] clauses name,
    those the conversions raise, and [RuntimeError] for an exception of any
    other class.  All of them derive from [Exception]; an interruption of
    the process from outside is not an event of the model. *)
Inductive exn : Type :=
| TypeError
| ValueError
| AttributeError
| OverflowError
| HTTPError
| RequestException
| RuntimeError.

(** A computation that returns or raises. *)
Inductive res (A : Type) : Type :=
| Ok (a : A)
| Raise (e : exn).
Arguments Ok {A} a.
Arguments Raise {A} e.

Definition bind {A B : Type} (c : res A) (k : A -> res B) : res B :=
  match c with
  | Ok a => k a
  | Raise e => Raise e
  end.

Notation "x <- c ;; k" := (bind c (fun x => k))
  (at level 61, c at next level, right associativity).

(** ** Binary64 arithmetic *)

Module F64.
Definition prec : Z := 53.
Definition emax : Z := 1024.

Definition of_Z (z : Z) : spec_float := binary_normalize prec emax z 0 false.
Definition add : spec_float -> spec_float -> spec_float := SFadd prec emax.
Definition sub : spec_float -> spec_float -> spec_float := SFsub prec emax.
Definition mul : spec_float -> spec_float -> spec_float := SFmul prec emax.
Definition div : spec_float -> spec_float -> spec_float := SFdiv prec emax.
Definition abs : spec_float -> spec_float := SFabs.
Definition ltb : spec_float -> spec_float -> bool := SFltb.
Definition leb : spec_float -> spec_float -> bool := SFleb.
Definition eqb : spec_float -> spec_float -> bool := SFeqb.

Definition zero : spec_float := S754_zero false.
Definition is_infinite (f : spec_float) : bool :=
  match f with
  | S754_infinity _ => true
  | _ => false
  end.
End F64.

Declare Scope f64_scope.
Delimit Scope f64_scope with f64.
Infix "+" := F64.add : f64_scope.
Infix "-" := F64.sub : f64_scope.
Infix "*" := F64.mul : f64_scope.
Infix "/" := F64.div : f64_scope.
Infix "<?" := F64.ltb : f64_scope.
Infix "<=?" := F64.leb : f64_scope.

(** [float(n)] for a Python [int]: the nearest binary64, ties to even;
    an [int] that rounds beyond the largest finite float raises. *)
Definition float_of_int (z : Z) : res spec_float :=
  let f := F64.of_Z z in
  if F64.is_infinite f then Raise OverflowError else Ok f.

(** ** Dictionaries *)

Fixpoint lookup (k : string) (d : list (string * value)) : option value :=
  match d with
  | [] => None
  | (k', v) :: d' => if String.eqb k k' then Some v else lookup k d'
  end.

(** [d.get(k, default)] on a dict. *)
Definition dict_get (d : list (string * value)) (k : string) (default : value)
  : value :=
  match lookup k d with
  | Some v => v
  | None => default
  end.

(** [x.get(k, default)] on any value: only a dict has the method. *)
Definition py_get (x : value) (k : string) (default : value) : res value :=
  match x with
  | JDict d => Ok (dict_get d k default)
  | _ => Raise AttributeError
  end.

Definition is_dict (v : value) : bool :=
  match v with
  | JDict _ => true
  | _ => false
  end.

(** Truth value of a Python object, as [not x] and [if x] test it. *)
Definition truthy (v : value) : bool :=
  match v with
  | JNull => false
  | JBool b => b
  | JInt z => negb (Z.eqb z 0)
  | JFloat f => negb (F64.eqb f F64.zero)
  | JStr s => negb (String.eqb s "")
  | JList l => match l with [] => false | _ => true end
  | JDict d => match d with [] => false | _ => true end
  end.

(** ** Equality and containment *)

(** [n == f] for an [int] and a [float]: Python compares the exact values. *)
Definition int_eq_float (n : Z) (f : spec_float) : bool :=
  match f with
  | S754_zero _ => Z.eqb n 0
  | S754_finite s m e =>
      let m' := if s then Z.neg m else Z.pos m in
      if Z.leb 0 e then Z.eqb n (m' * 2 ^ e) else Z.eqb (n * 2 ^ (- e)) m'
  | _ => false
  end.

Definition is_nan (f : spec_float) : bool :=
  match f with
  | S754_nan => true
  | _ => false
  end.

(** [a == b] between decoded values, as [in] applies it to list items: an
    item that is the same object counts as equal, and the decoder hands out
    one shared object for every [NaN] literal.  [bool] is a subclass of
    [int]; dicts are equal when they have the same items in any order. *)
Fixpoint py_eq (a b : value) {struct a} : bool :=
  match a, b with
  | JNull, JNull => true
  | JStr s, JStr t => String.eqb s t
  | JList l, JList m =>
      (fix all2 (l m : list value) {struct l} : bool :=
         match l, m with
         | [], [] => true
         | x :: l', y :: m' => py_eq x y && all2 l' m'
         | _, _ => false
         end) l m
  | JDict d, JDict e =>
      Nat.eqb (List.length d) (List.length e)
      && (fix sub (d : list (string * value)) : bool :=
            match d with
            | [] => true
            | (k, v) :: d' =>
                match lookup k e with
                | Some w => py_eq v w
                | None => false
                end && sub d'
            end) d
  | JBool x, JBool y => Bool.eqb x y
  | JBool x, JInt n => Z.eqb (Z.b2z x) n
  | JInt n, JBool y => Z.eqb n (Z.b2z y)
  | JInt n, JInt k => Z.eqb n k
  | JBool x, JFloat f => int_eq_float (Z.b2z x) f
  | JFloat f, JBool y => int_eq_float (Z.b2z y) f
  | JInt n, JFloat f => int_eq_float n f
  | JFloat f, JInt n => int_eq_float n f
  | JFloat f, JFloat g => F64.eqb f g || (is_nan f && is_nan g)
  | _, _ => false
  end.

(** [x in items] *)
Definition py_in (x : value) (items : list value) : bool :=
  existsb (fun item => py_eq item x) items.

(** ** Strings *)

(** [c.lower()] on one character of a string held as UTF-8: the letters A
    to Z move to a to z and every other byte is kept.  Python also changes
    letters beyond ASCII; none of them becomes p, u or m, the only letters
    the bot looks for in a lowered string. *)
Definition lower_char (c : ascii) : ascii :=
  let n := nat_of_ascii c in
  if (Nat.leb 65 n && Nat.leb n 90)%bool then ascii_of_nat (n + 32) else c.

Fixpoint lower (s : string) : string :=
  match s with
  | EmptyString => EmptyString
  | String c s' => String (lower_char c) (lower s')
  end.

(** [s.endswith(suffix)]: some tail of [s] is [suffix]. *)
Fixpoint endswith (s suffix : string) : bool :=
  String.eqb s suffix
  || match s with
     | EmptyString => false
     | String _ s' => endswith s' suffix
     end.

(** [is_pump_token] *)
Definition is_pump_token (token_address : value) : bool :=
  match token_address with
  | JStr s => endswith (lower s) "pump"
  | _ => false
  end.

(** ** Answers of the network *)

Inductive body : Type :=
| EmptyBody
| NotJson
| Json (v : value).

(** What a GET yields: no response at all (a transport failure), or a
    response with its status class and content. *)
Inductive response : Type :=
| NoResponse
| Response (status_ok : bool) (content : body).

(** [fetch_token_profiles]: every failure and every payload that is not a
    list gives the empty list; a list is filtered to the Solana dicts. *)
Definition is_solana (token : value) : bool :=
  match token with
  | JDict d =>
      match dict_get d "chainId" JNull with
      | JStr c => String.eqb c "solana"
      | _ => false
      end
  | _ => false
  end.

Definition fetch_token_profiles (r : response) : list value :=
  match r with
  | Response true (Json (JList data)) => filter is_solana data
  | _ => []
  end.

(** [fetch_token_details]: the status is not checked; the three accepted
    shapes are brought to a dict with a [pairs] key. *)
Definition fetch_token_details (r : response) : option value :=
  match r with
  | Response _ (Json (JList data)) => Some (JDict [("pairs", JList data)])
  | Response _ (Json (JDict d)) =>
      match lookup "pairs" d with
      | Some _ => Some (JDict d)
      | None => Some (JDict [("pairs", JList [JDict d])])
      end
  | _ => None
  end.

(** ** Configuration constants *)

(** The minimum liquidity, in USD, of a token that is alerted on. *)
Definition LIQUIDITY_THRESHOLD : Z := 5000.

Section Bot.

(** The built-in conversions the code calls, taken as given:
    [float(s)] on a [str] ([None] when it raises [ValueError]),
    [format(x, ".<n>f")] on a float, and [str(x)] on a value that is
    not itself a [str]. *)
Variable str_to_float : string -> option spec_float.
Variable format_fixed : nat -> spec_float -> string.
Variable str_of_other : value -> string.

(** [float(x)] *)
Definition py_float (x : value) : res spec_float :=
  match x with
  | JNull => Raise TypeError
  | JBool b => float_of_int (Z.b2z b)
  | JInt z => float_of_int z
  | JFloat f => Ok f
  | JStr s =>
      match str_to_float s with
      | Some f => Ok f
      | None => Raise ValueError
      end
  | JList _ => Raise TypeError
  | JDict _ => Raise TypeError
  end.

(** [str(x)], as an f-string renders a value. *)
Definition py_str (x : value) : string :=
  match x with
  | JStr s => s
  | _ => str_of_other x
  end.

(** ** Pair Selector: [get_main_pair] *)

(** The body of the inner [try] for one dict entry: the liquidity
    container is replaced by an empty dict when it is not a dict. *)
Definition pair_liquidity (d : list (string * value)) : res spec_float :=
  let liquidity_data :=
    match dict_get d "liquidity" (JDict []) with
    | JDict ld => ld
    | _ => []
    end in
  py_float (dict_get liquidity_data "usd" (JInt 0)).

(** One iteration of the scan over [(main_pair, max_liquidity)].  The inner
    handler catches [TypeError] and [ValueError] only. *)
Definition scan_pair (st : option value * spec_float) (pair : value)
  : res (option value * spec_float) :=
  match pair with
  | JDict d =>
      match pair_liquidity d with
      | Ok liquidity =>
          if (snd st <? liquidity)%f64 then Ok (Some pair, liquidity)
          else Ok st
      | Raise TypeError => Ok st
      | Raise ValueError => Ok st
      | Raise e => Raise e
      end
  | _ => Ok st
  end.

Fixpoint scan_pairs (st : option value * spec_float) (pairs : list value)
  : res (option value * spec_float) :=
  match pairs with
  | [] => Ok st
  | p :: rest => st' <- scan_pair st p ;; scan_pairs st' rest
  end.

(** [not main_pair] is false exactly for a non-empty selection. *)
Definition selected (main_pair : option value) : bool :=
  match main_pair with
  | Some p => truthy p
  | None => false
  end.

Definition get_main_pair (token_data : value) : option value :=
  match token_data with
  | JDict td =>
      let pairs :=
        match dict_get td "pairs" (JList []) with
        | JList l => l
        | _ => [token_data]
        end in
      match pairs with
      | [] => None
      | first :: _ =>
          match scan_pairs (None, F64.zero) pairs with
          | Ok (main_pair, _) =>
              let main_pair :=
                if selected main_pair then main_pair
                else if is_dict first then Some first else None in
              if selected main_pair then main_pair else None
          | Raise _ => None
          end
      end
  | _ => None
  end.

(** ** Risk Calculator: [calculate_investment_risk] *)

Record risk_data : Type := mk_risk {
  liquidity : spec_float;
  volume_24h : spec_float;
  price_change_24h : spec_float;
  risk_score : spec_float;
  risk_percentage : spec_float
}.

(** [float(pair.get(outer, {}).get(inner, 0))] *)
Definition field_float (pair : list (string * value)) (outer inner : string)
  : res spec_float :=
  field <- py_get (dict_get pair outer (JDict [])) inner (JInt 0) ;;
  py_float field.

(** [max(0, x)]: the second argument replaces the first when it is greater. *)
Definition max_0 (x : spec_float) : spec_float :=
  if (F64.zero <? x)%f64 then x else F64.zero.

(** [min(100, x)]: the second argument replaces the first when it is less. *)
Definition min_100 (x : spec_float) : spec_float :=
  if (x <? F64.of_Z 100)%f64 then x else F64.of_Z 100.

Definition risk_formula (l v p : spec_float) : spec_float :=
  ((l / F64.of_Z 10000) - (v / F64.of_Z 100000)
   + (F64.abs p / F64.of_Z 10))%f64.

(** The body of the [try]; the [int] results [0] and [100] of the clamp are
    kept as the floats of the same value. *)
Definition risk_body (pair : list (string * value)) : res risk_data :=
  l <- field_float pair "liquidity" "usd" ;;
  v <- field_float pair "volume" "h24" ;;
  p <- field_float pair "priceChange" "h24" ;;
  let score := risk_formula l v p in
  let percentage := min_100 (max_0 (score * F64.of_Z 10)%f64) in
  Ok (mk_risk l v p score percentage).

Definition calculate_investment_risk (pair : value) : option risk_data :=
  match pair with
  | JDict d =>
      match risk_body d with
      | Ok r => Some r
      | Raise _ => None
      end
  | _ => None
  end.

(** ** Message Formatter: [generate_token_info] *)

Definition MSG_INVALID : string := "Informações do token inválidas".
Definition MSG_NO_PAIR : string := "Dados do par não disponíveis".
Definition MSG_RISK_ERROR : string := "Erro ao calcular risco".

(** [x == s] for a [str] literal [s]. *)
Definition eq_str (x : value) (s : string) : bool :=
  match x with
  | JStr t => String.eqb t s
  | _ => false
  end.

(** The text one entry of [links] contributes. *)
Definition format_link (link : value) : string :=
  match link with
  | JDict ld =>
      let url := py_str (dict_get ld "url" (JStr "")) in
      if eq_str (dict_get ld "type" JNull) "twitter" then
        "🐦 <a href='" ++ url ++ "'>Twitter</a> | "
      else if eq_str (dict_get ld "type" JNull) "telegram" then
        "📢 <a href='" ++ url ++ "'>Telegram</a> | "
      else if truthy (dict_get ld "url" JNull) then
        "🌐 <a href='" ++ url ++ "'>Site</a> | "
      else ""
  | _ => ""
  end.

Definition format_links (links : value) : string :=
  match links with
  | JList l => String.concat "" (map format_link l)
  | _ => ""
  end.

Definition NL : string := String (ascii_of_nat 10) EmptyString.

Definition format_message (tp : list (string * value)) (r : risk_data)
  : string :=
  let token_address := dict_get tp "tokenAddress" (JStr "Desconhecido") in
  let links_formatted := format_links (dict_get tp "links" (JList [])) in
  let gecko_link :=
    "https://www.geckoterminal.com/solana/pools/" ++ py_str token_address in
  let k x := format_fixed 1 (x / F64.of_Z 1000)%f64 in
  let f2 := format_fixed 2 in
  "<b>✅ Novo Token Detectado!</b>" ++ NL ++ NL
  ++ "<b>Liquidez:</b> " ++ k (liquidity r) ++ "K" ++ NL
  ++ "<b>Volume 24h:</b> " ++ k (volume_24h r) ++ "K" ++ NL
  ++ "<b>Mudança de Preço 24h:</b> " ++ f2 (price_change_24h r) ++ "%"
  ++ NL ++ NL
  ++ "<b>Cálculo de Risco:</b> (" ++ f2 (liquidity r) ++ " / 10,000) - "
  ++ f2 (volume_24h r) ++ " / 100,000) + (|" ++ f2 (price_change_24h r)
  ++ "| / 10) = " ++ f2 (risk_score r) ++ NL
  ++ "<b>Porcentagem de Risco:</b> " ++ format_fixed 0 (risk_percentage r)
  ++ "%" ++ NL ++ NL
  ++ "<b>🔗 Links:</b> " ++ links_formatted ++ NL
  ++ "<b>📊 Gráfico:</b> <a href='" ++ gecko_link ++ "'>GeckoTerminal</a>"
  ++ NL
  ++ "<b>🔍 DexScreener:</b> <a href='"
  ++ py_str (dict_get tp "url" (JStr "")) ++ "'>Abrir</a>" ++ NL
  ++ "<b>🆔 Address:</b> <code>" ++ py_str token_address ++ "</code>".

Definition generate_token_info (token_profile token_data : value)
  : string * option value :=
  match token_profile, token_data with
  | JDict tp, JDict _ =>
      match get_main_pair token_data with
      | None => (MSG_NO_PAIR, None)
      | Some p =>
          if negb (truthy p) then (MSG_NO_PAIR, None)
          else
            match calculate_investment_risk p with
            | None => (MSG_RISK_ERROR, None)
            | Some r => (format_message tp r, Some p)
            end
      end
  | _, _ => (MSG_INVALID, None)
  end.

(** ** Chart Renderer: [generate_plotly_graph] *)

Definition time_frames : list string := ["m5"; "h1"; "h6"; "h24"].
Definition labels : list string := ["5 min"; "1 hora"; "6 horas"; "24 horas"].

(** The body of the inner [try] for one window: both conversions come
    before both appends. *)
Definition window_values (d : list (string * value)) (tf : string)
  : res (spec_float * spec_float) :=
  price_change <- field_float d "priceChange" tf ;;
  volume <- field_float d "volume" tf ;;
  Ok (price_change, volume).

(** One iteration over [(price_changes, volumes)]; the inner handler
    catches [TypeError] and [ValueError] and appends a zero to each list. *)
Definition chart_step (d : list (string * value))
  (acc : list spec_float * list spec_float) (tf : string)
  : res (list spec_float * list spec_float) :=
  match window_values d tf with
  | Ok (price_change, volume) =>
      Ok ((fst acc ++ [price_change])%list, (snd acc ++ [volume])%list)
  | Raise TypeError =>
      Ok ((fst acc ++ [F64.zero])%list, (snd acc ++ [F64.zero])%list)
  | Raise ValueError =>
      Ok ((fst acc ++ [F64.zero])%list, (snd acc ++ [F64.zero])%list)
  | Raise e => Raise e
  end.

Fixpoint chart_series (d : list (string * value))
  (acc : list spec_float * list spec_float) (tfs : list string)
  : res (list spec_float * list spec_float) :=
  match tfs with
  | [] => Ok acc
  | tf :: rest => acc' <- chart_step d acc tf ;; chart_series d acc' rest
  end.

(** What the figure holds when it is written out: the bar trace
    ([x], [y], colours, texts), the line trace ([x], [y], texts), the title. *)
Record figure : Type := mk_figure {
  bar_x : list string;
  bar_y : list spec_float;
  bar_colors : list string;
  bar_text : list string;
  line_x : list string;
  line_y : list spec_float;
  line_text : list string;
  title : string
}.

Definition bar_color (pc : spec_float) : string :=
  if (F64.zero <=? pc)%f64 then "#4CAF50" else "#F44336".

Definition build_figure (price_changes volumes : list spec_float)
  (token_name : value) : figure :=
  mk_figure
    labels price_changes (map bar_color price_changes)
    (map (fun val => format_fixed 1 val ++ "%") price_changes)
    labels volumes
    (map (fun val => "$" ++ format_fixed 1 (val / F64.of_Z 1000)%f64 ++ "K")
       volumes)
    ("Performance: " ++ py_str token_name).

(** [image_ok] tells whether [fig.write_image] returned; when it raises,
    the outer handler returns [None] as it does for any other exception. *)
Definition generate_plotly_graph (pair : value) (token_name : value)
  (image_ok : bool) : option figure :=
  match pair with
  | JDict d =>
      match chart_series d ([], []) time_frames with
      | Ok (price_changes, volumes) =>
          if image_ok then Some (build_figure price_changes volumes token_name)
          else None
      | Raise _ => None
      end
  | _ => None
  end.

(** ** Notifier: [send_to_telegram] *)

(** The two module-level credentials, read at each call. *)
Record credentials : Type := mk_credentials {
  TELEGRAM_BOT_TOKEN : string;
  TELEGRAM_CHAT_ID : string
}.

(** The request handed to [requests.post]. *)
Inductive request : Type :=
| SendPhoto (url chat_id caption : string) (photo : figure)
| SendMessage (url chat_id text : string).

(** What happens to a POST: no answer (a transport failure), an answer with
    a success or an error status, or an exception from outside the request
    library. *)
Inductive post_outcome : Type :=
| NoAnswer
| Answer (status_ok : bool)
| Failure.

(** [requests.post(...)] followed by [response.raise_for_status()], which
    raises [HTTPError] for an error status. *)
Definition post_and_check (o : post_outcome) : res unit :=
  match o with
  | NoAnswer => Raise RequestException
  | Answer true => Ok tt
  | Answer false => Raise HTTPError
  | Failure => Raise RuntimeError
  end.

(** The [try] block: the requests attempted, and the result. *)
Definition send_body (c : credentials) (message : string)
  (image_buffer : option figure) (o : post_outcome)
  : list request * res bool :=
  if String.eqb message "" || String.eqb (TELEGRAM_BOT_TOKEN c) ""
     || String.eqb (TELEGRAM_CHAT_ID c) ""
  then ([], Ok false)
  else
    let base := "https://api.telegram.org/bot" ++ TELEGRAM_BOT_TOKEN c in
    let req :=
      match image_buffer with
      | Some img =>
          SendPhoto (base ++ "/sendPhoto") (TELEGRAM_CHAT_ID c) message img
      | None =>
          SendMessage (base ++ "/sendMessage") (TELEGRAM_CHAT_ID c) message
      end in
    ([req], _ <- post_and_check o ;; Ok true).

(** The three handlers log and fall through to [return False]. *)
Definition send_to_telegram (c : credentials) (message : string)
  (image_buffer : option figure) (o : post_outcome)
  : list request * res bool :=
  let (requests, r) := send_body c message image_buffer o in
  (requests,
   match r with
   | Ok b => Ok b
   | Raise HTTPError => Ok false
   | Raise RequestException => Ok false
   | Raise _ => Ok false
   end).

(** ** Discovery Loop: [process_new_tokens] and [main] *)

(** What the outside world answers while one candidate is processed. *)
Record answers : Type := mk_answers {
  details : response;
  image_ok : bool;
  telegram : post_outcome
}.

(** The network calls made for a candidate, in the order they happen. *)
Inductive event : Type :=
| FetchDetails (token_address : value)
| Post (token_address : value) (req : request) (ok : bool).

(** The global [known_tokens], the counter of the pass, and the calls made
    so far. *)
Record loop_state : Type := mk_state {
  known_tokens : list value;
  tokens_sent : nat;
  trace : list event
}.

Definition log_calls (st : loop_state) (evs : list event) : loop_state :=
  mk_state (known_tokens st) (tokens_sent st) (trace st ++ evs)%list.

Definition mark_sent (st : loop_state) (token_address : value) : loop_state :=
  mk_state (known_tokens st ++ [token_address])%list (S (tokens_sent st))
    (trace st).

(** [float(pair.get("liquidity", {}).get("usd", 0))], outside any [try]. *)
Definition threshold_liquidity (p : value) : res spec_float :=
  liquidity_data <- py_get p "liquidity" (JDict []) ;;
  usd <- py_get liquidity_data "usd" (JInt 0) ;;
  py_float usd.

Definition or_null (p : option value) : value :=
  match p with
  | Some v => v
  | None => JNull
  end.

(** The body of the [for] loop; [Ok tt] covers both [continue] and the
    normal end of the body (the pause between candidates is not modelled). *)
Definition process_token (c : credentials) (st : loop_state)
  (token_profile : value) (a : answers) : loop_state * res unit :=
  match token_profile with
  | JDict tp =>
      let token_address := dict_get tp "tokenAddress" JNull in
      if negb (truthy token_address)
         || py_in token_address (known_tokens st)
         || is_pump_token token_address
      then (st, Ok tt)
      else
        let st := log_calls st [FetchDetails token_address] in
        match fetch_token_details (details a) with
        | None => (st, Ok tt)
        | Some token_data =>
            if negb (truthy token_data) then (st, Ok tt)
            else
              match get_main_pair token_data with
              | None => (st, Ok tt)
              | Some p =>
                  if negb (truthy p) then (st, Ok tt)
                  else
                    match threshold_liquidity p with
                    | Raise e => (st, Raise e)
                    | Ok liq =>
                        if (liq <? F64.of_Z LIQUIDITY_THRESHOLD)%f64
                        then (st, Ok tt)
                        else
                          let (message, p') :=
                            generate_token_info token_profile token_data in
                          let graph_buffer :=
                            generate_plotly_graph (or_null p') token_address
                              (image_ok a) in
                          let (requests, sent) :=
                            send_to_telegram c message graph_buffer
                              (telegram a) in
                          match sent with
                          | Raise e => (st, Raise e)
                          | Ok ok =>
                              let st :=
                                log_calls st
                                  (map (fun r => Post token_address r ok)
                                     requests) in
                              if ok then (mark_sent st token_address, Ok tt)
                              else (st, Ok tt)
                          end
                    end
              end
        end
  | _ => (st, Ok tt)
  end.

(** The [for] loop: candidate number [i] is answered by [env i]; an
    exception leaves the loop with the state reached so far. *)
Fixpoint process_tokens (c : credentials) (env : nat -> answers) (i : nat)
  (token_profiles : list value) (st : loop_state) : loop_state * res unit :=
  match token_profiles with
  | [] => (st, Ok tt)
  | token_profile :: rest =>
      match process_token c st token_profile (env i) with
      | (st', Ok _) => process_tokens c env (S i) rest st'
      | (st', Raise e) => (st', Raise e)
      end
  end.

(** One pass: what the profiles feed and the rest of the world answer. *)
Record pass_input : Type := mk_pass {
  profiles : response;
  env : nat -> answers
}.

(** [process_new_tokens], from the known tokens and the trace so far. *)
Definition process_new_tokens (c : credentials) (known : list value)
  (tr : list event) (inp : pass_input) : loop_state * res bool :=
  let token_profiles := fetch_token_profiles (profiles inp) in
  match token_profiles with
  | [] => (mk_state known 0 tr, Ok false)
  | _ =>
      match process_tokens c (env inp) 0 token_profiles (mk_state known 0 tr)
      with
      | (st, Ok _) => (st, Ok (Nat.ltb 0 (tokens_sent st)))
      | (st, Raise e) => (st, Raise e)
      end
  end.

(** [main], for as many passes as the process lives: an exception out of a
    pass is logged and the loop goes on with the tokens known so far. *)
Fixpoint main (c : credentials) (passes : list pass_input)
  (known : list value) (tr : list event) : list value * list event :=
  match passes with
  | [] => (known, tr)
  | inp :: rest =>
      let (st, _) := process_new_tokens c known tr inp in
      main c rest (known_tokens st) (trace st)
  end.

(** ** Notions the properties are stated with *)

(** The liquidity the selector reads off a record: the converted
    [liquidity.usd], and 0 for a record that is not a dict or whose value
    does not convert. *)
Definition parsed_liquidity (p : value) : spec_float :=
  match p with
  | JDict d =>
      match pair_liquidity d with
      | Ok l => l
      | Raise _ => F64.zero
      end
  | _ => F64.zero
  end.

(** The record holds an [int] too large for a float in [liquidity.usd]. *)
Definition overflows (p : value) : bool :=
  match p with
  | JDict d =>
      match pair_liquidity d with
      | Raise OverflowError => true
      | _ => false
      end
  | _ => false
  end.

Definition positive_liquidity (p : value) : bool :=
  (F64.zero <? parsed_liquidity p)%f64.

(** The record the code falls back to: the first one, when it is a dict with
    at least one key. *)
Definition fallback_pair (pairs : list value) : option value :=
  match pairs with
  | first :: _ => if is_dict first && truthy first then Some first else None
  | [] => None
  end.

(** The fallback in the words of the specification: the first record of the
    input, in order, that is a mapping. *)
Definition first_valid_record (pairs : list value) : option value :=
  find is_dict pairs.

(** What the scan knows after the records [seen]. *)
Definition scan_inv (seen : list value) (st : option value * spec_float)
  : Prop :=
  (snd st <? F64.zero)%f64 = false
  /\ (forall q, In q seen -> (snd st <? parsed_liquidity q)%f64 = false)
  /\ match fst st with
     | None => snd st = F64.zero
     | Some p =>
         exists i,
           nth_error seen i = Some p
           /\ parsed_liquidity p = snd st
           /\ (F64.zero <? snd st)%f64 = true
           /\ forall j q, (j < i)%nat -> nth_error seen j = Some q ->
                F64.eqb (parsed_liquidity q) (parsed_liquidity p) = false
     end.


(** The two values of a window: the converted fields, or two zeros when one
    of them does not convert. *)
Definition window_or_zero (d : list (string * value)) (tf : string)
  : spec_float * spec_float :=
  match window_values d tf with
  | Ok pv => pv
  | Raise _ => (F64.zero, F64.zero)
  end.

Definition event_address (ev : event) : value :=
  match ev with
  | FetchDetails a => a
  | Post a _ _ => a
  end.

Definition is_post (ev : event) : bool :=
  match ev with
  | Post _ _ _ => true
  | FetchDetails _ => false
  end.

(** The addresses alerted on: those of the posts that succeeded, in order. *)
Fixpoint alerted (tr : list event) : list value :=
  match tr with
  | [] => []
  | Post a _ true :: rest => a :: alerted rest
  | _ :: rest => alerted rest
  end.

(** Each address is new with respect to the known ones and to those before
    it in the list. *)
Fixpoint fresh (known : list value) (l : list value) : Prop :=
  match l with
  | [] => True
  | x :: rest => py_in x known = false /\ fresh (known ++ [x])%list rest
  end.

(** The address ends with the four letters, each in either case. *)
Definition ends_with_pump (s : string) : Prop :=
  exists (pre : string) (c1 c2 c3 c4 : ascii),
    s = pre ++ String c1 (String c2 (String c3 (String c4 EmptyString)))
    /\ (c1 = "p" \/ c1 = "P")%char
    /\ (c2 = "u" \/ c2 = "U")%char
    /\ (c3 = "m" \/ c3 = "M")%char
    /\ (c4 = "p" \/ c4 = "P")%char.

(** The state a pass works on, without its counter. *)
Definition view (st : loop_state) : list value * list event :=
  (known_tokens st, trace st).

(** From one state of the loop to a later one: calls were added to the
    trace, the addresses of the successful posts among them were added to
    the known tokens, each of them new when it was added, and no call was
    made for an address with the excluded ending. *)
Definition extends (v v' : list value * list event) : Prop :=
  exists evs,
    snd v' = (snd v ++ evs)%list
    /\ fst v' = (fst v ++ alerted evs)%list
    /\ fresh (fst v) (alerted evs)
    /\ Forall (fun ev => is_pump_token (event_address ev) = false) evs.

(** The calls [evs] one iteration made from [st], ending in [result]: none
    when the candidate is skipped at the top, otherwise the fetch, alone or
    followed by one post, and the address joins the known tokens exactly
    when that post succeeded. *)
Definition step_events (st : loop_state) (token_profile : value)
  (result : loop_state * res unit) (evs : list event) : Prop :=
  trace (fst result) = (trace st ++ evs)%list
  /\ known_tokens (fst result) = (known_tokens st ++ alerted evs)%list
  /\ (evs = []
      \/ exists tp a0,
           token_profile = JDict tp
           /\ a0 = dict_get tp "tokenAddress" JNull
           /\ truthy a0 = true
           /\ py_in a0 (known_tokens st) = false
           /\ is_pump_token a0 = false
           /\ (evs = [FetchDetails a0]
               \/ exists req ok,
                    evs = [FetchDetails a0; Post a0 req ok]
                    /\ snd result = Ok tt)).

(** An iteration that made no post and changed neither the known tokens nor
    the counter. *)
Definition quiet_step (st : loop_state) (result : loop_state * res unit)
  : Prop :=
  known_tokens (fst result) = known_tokens st
  /\ tokens_sent (fst result) = tokens_sent st
  /\ exists evs,
       trace (fst result) = (trace st ++ evs)%list
       /\ Forall (fun ev => is_post ev = false) evs.

(** ** The records in the words of the specification *)

(** What a reader finds in a numeric field: a number; a value that [float]
    refuses ([None], a list, a mapping, a string that is no number); an
    [int] too large for a float; or, for a field of a nested mapping, a
    container that is present and is not a mapping. *)
Inductive reading : Type :=
| Number (f : spec_float)
| Unparsable
| TooLarge
| NoMapping.

Definition read_value (x : value) : reading :=
  match x with
  | JFloat f => Number f
  | JInt z =>
      if F64.is_infinite (F64.of_Z z) then TooLarge else Number (F64.of_Z z)
  | JBool b => Number (F64.of_Z (Z.b2z b))
  | JStr s =>
      match str_to_float s with
      | Some f => Number f
      | None => Unparsable
      end
  | JNull => Unparsable
  | JList _ => Unparsable
  | JDict _ => Unparsable
  end.

(** [liquidity.usd] of a record: a container that is absent or no mapping,
    and a missing field, read as 0; an entry that is no mapping has no
    liquidity to read. *)
Definition liquidity_reading (p : value) : reading :=
  match p with
  | JDict d =>
      match lookup "liquidity" d with
      | Some (JDict ld) =>
          match lookup "usd" ld with
          | Some x => read_value x
          | None => Number F64.zero
          end
      | _ => Number F64.zero
      end
  | _ => Unparsable
  end.

(** The parsed [liquidity.usd], unparsable or missing values treated as 0. *)
Definition liquidity_or_zero (p : value) : spec_float :=
  match liquidity_reading p with
  | Number f => f
  | _ => F64.zero
  end.

(** The field [outer.inner] of a pair record: an absent container and a
    missing field read as 0. *)
Definition read_field (d : list (string * value)) (outer inner : string)
  : reading :=
  match lookup outer d with
  | None => Number F64.zero
  | Some (JDict ld) =>
      match lookup inner ld with
      | Some x => read_value x
      | None => Number F64.zero
      end
  | Some _ => NoMapping
  end.

(** A field with 0 substituted when it is missing or unparsable, each field
    on its own. *)
Definition substituted (d : list (string * value)) (outer inner : string)
  : spec_float :=
  match read_field d outer inner with
  | Number f => f
  | _ => F64.zero
  end.

(** The bar and the line point of a window, [priceChange] read before
    [volume]: the two numbers when both fields are numbers; two zeros when
    the first field that is no number is unparsable; nothing when it is an
    integer too large for a float or sits in a container that is no
    mapping. *)
Definition window_reading (d : list (string * value)) (tf : string)
  : option (spec_float * spec_float) :=
  match read_field d "priceChange" tf with
  | Number pc =>
      match read_field d "volume" tf with
      | Number v => Some (pc, v)
      | Unparsable => Some (F64.zero, F64.zero)
      | TooLarge => None
      | NoMapping => None
      end
  | Unparsable => Some (F64.zero, F64.zero)
  | TooLarge => None
  | NoMapping => None
  end.

(** ** Inputs the properties are run on *)

(** The pair of the specification's example: liquidity 20000, 24 h volume
    50000, 24 h price change 10. *)
Definition example_pair : value :=
  JDict [("liquidity", JDict [("usd", JInt 20000)]);
         ("volume", JDict [("h24", JInt 50000)]);
         ("priceChange", JDict [("h24", JInt 10)])].

(** Stand-ins for the three built-ins, to run the model on the inputs below;
    the properties themselves are proved for every choice of the built-ins.
    [demo_str_to_float] converts a non-empty run of decimal digits, as
    [float] does, and refuses every other string. *)
Definition digit_of (c : ascii) : option Z :=
  let n := nat_of_ascii c in
  if (Nat.leb 48 n && Nat.leb n 57)%bool then Some (Z.of_nat (n - 48))
  else None.

Fixpoint digits_value (acc : Z) (s : string) : option Z :=
  match s with
  | EmptyString => Some acc
  | String c s' =>
      match digit_of c with
      | Some dgt => digits_value (10 * acc + dgt) s'
      | None => None
      end
  end.

Definition demo_str_to_float (s : string) : option spec_float :=
  match s with
  | EmptyString => None
  | _ => option_map F64.of_Z (digits_value 0 s)
  end.

Definition demo_format_fixed (n : nat) (x : spec_float) : string := "0".

Definition demo_str_of_other (v : value) : string := "None".

(** Two records, the first of them not a mapping, none with a positive
    liquidity. *)
Definition zero_liquidity_pair : value :=
  JDict [("liquidity", JDict [("usd", JInt 0)])].

Definition pairs_with_leading_junk : list value :=
  [JStr "x"; zero_liquidity_pair].

(** Three records: 10, then 20 twice. *)
Definition pair_of_liquidity (tag : string) (usd : Z) : value :=
  JDict [("pairAddress", JStr tag); ("liquidity", JDict [("usd", JInt usd)])].

Definition three_pairs : list value :=
  [pair_of_liquidity "a" 10; pair_of_liquidity "b" 20;
   pair_of_liquidity "c" 20].

Definition demo_credentials : credentials :=
  mk_credentials "bot-token" "chat-id".

Definition profile_of (address : string) : list (string * value) :=
  [("chainId", JStr "solana"); ("tokenAddress", JStr address)].

(** Details whose only pair has a liquidity that does not convert. *)
Definition details_unparsable_liquidity : value :=
  JDict [("pairs",
          JList [JDict [("liquidity", JDict [("usd", JStr "abc")])]])].

(** Details whose only pair passes the threshold and has no usable volume. *)
Definition details_null_volume : value :=
  JDict [("pairs",
          JList [JDict [("liquidity", JDict [("usd", JInt 6000)]);
                        ("volume", JNull)]])].

(** Details whose only pair is below the threshold. *)
Definition details_low_liquidity : value :=
  JDict [("pairs",
          JList [JDict [("liquidity", JDict [("usd", JInt 4999)])]])].

(** Details of a pair above the threshold, with some of the windows. *)
Definition chart_pair : list (string * value) :=
  [("liquidity", JDict [("usd", JInt 6000)]);
   ("priceChange", JDict [("m5", JInt 1); ("h1", JStr "n/a")]);
   ("volume", JDict [("h1", JInt 7); ("h24", JInt 50000)])].

Definition details_good : value := JDict [("pairs", JList [JDict chart_pair])].

(** The network answers every candidate of a pass the same way. *)
Definition answering (d : value) (o : post_outcome) : answers :=
  mk_answers (Response true (Json d)) true o.

(** A pass over two profiles, "abc" and then "def". *)
Definition pass_over_two (d : value) (o : post_outcome) : pass_input :=
  mk_pass
    (Response true (Json (JList [JDict (profile_of "abc");
                                 JDict (profile_of "def")])))
    (fun _ => answering d o).

Definition empty_state : loop_state := mk_state [] 0 [].

(** ** Notions for the further properties *)

(** The collection [get_main_pair] scans: the list under [pairs], or the
    document itself as the only record when [pairs] holds something else. *)
Definition candidate_pairs (td : list (string * value)) : list value :=
  match dict_get td "pairs" (JList []) with
  | JList l => l
  | _ => [JDict td]
  end.

(** The parts of a request. *)
Definition request_text (req : request) : string :=
  match req with
  | SendPhoto _ _ caption _ => caption
  | SendMessage _ _ text => text
  end.

Definition request_chat (req : request) : string :=
  match req with
  | SendPhoto _ chat_id _ _ => chat_id
  | SendMessage _ chat_id _ => chat_id
  end.

Definition request_photo (req : request) : option figure :=
  match req with
  | SendPhoto _ _ _ photo => Some photo
  | SendMessage _ _ _ => None
  end.

(** A call made for a profile of the list [l], for an address that was not
    among [known]. *)
Definition from_profiles (l : list value) (known : list value) (ev : event)
  : Prop :=
  py_in (event_address ev) known = false
  /\ truthy (event_address ev) = true
  /\ exists tp,
       In (JDict tp) l
       /\ event_address ev = dict_get tp "tokenAddress" JNull.

(** A call made in one of the passes, for a profile of its candidates. *)
Definition from_passes (passes : list pass_input) (known : list value)
  (ev : event) : Prop :=
  exists inp,
    In inp passes
    /\ from_profiles (fetch_token_profiles (profiles inp)) known ev.

(** No call of the list is for an address that was known when the call was
    made: known at the start, or alerted on earlier in the list. *)
Fixpoint untouched (known : list value) (evs : list event) : Prop :=
  match evs with
  | [] => True
  | ev :: rest =>
      py_in (event_address ev) known = false
      /\ untouched (known ++ alerted [ev])%list rest
  end.

(** * Properties *)

(** ** The order of binary64 values *)

Lemma SFcompare_swap (a b : spec_float) :
  SFcompare b a = option_map CompOpp (SFcompare a b).
Proof.
  destruct a as [sa|sa| |sa ma ea], b as [sb|sb| |sb mb eb];
    try destruct sa; try destruct sb; try reflexivity.
  all: cbn [SFcompare option_map].
  all: rewrite (Z.compare_antisym ea eb).
  all: fold (Pos.compare ma mb) (Pos.compare mb ma).
  all: rewrite (Pos.compare_antisym ma mb).
  all: destruct (ea ?= eb)%Z, (ma ?= mb)%positive; reflexivity.
Qed.

Lemma SFcompare_lt_trans (a b c : spec_float) :
  SFcompare a b = Some Lt -> SFcompare b c = Some Lt ->
  SFcompare a c = Some Lt.
Proof.
  destruct a as [sa|sa| |sa ma ea], b as [sb|sb| |sb mb eb],
    c as [sc|sc| |sc mc ec];
    try destruct sa; try destruct sb; try destruct sc;
    cbn [SFcompare]; try discriminate; try reflexivity.
  all: fold (Pos.compare ma mb) (Pos.compare mb mc) (Pos.compare ma mc).
  all: destruct (Z.compare_spec ea eb), (Z.compare_spec eb ec),
    (Z.compare_spec ea ec);
    destruct (Pos.compare_spec ma mb), (Pos.compare_spec mb mc),
    (Pos.compare_spec ma mc);
    cbn [CompOpp]; intros; try discriminate; try reflexivity; lia.
Qed.

Lemma SFcompare_lt_eq (a b c : spec_float) :
  SFcompare a b = Some Lt -> SFcompare c b = Some Eq ->
  SFcompare a c = Some Lt.
Proof.
  destruct a as [sa|sa| |sa ma ea], b as [sb|sb| |sb mb eb],
    c as [sc|sc| |sc mc ec];
    try destruct sa; try destruct sb; try destruct sc;
    cbn [SFcompare]; try discriminate; try reflexivity.
  all: fold (Pos.compare ma mb) (Pos.compare mc mb) (Pos.compare ma mc).
  all: destruct (Z.compare_spec ea eb), (Z.compare_spec ec eb),
    (Z.compare_spec ea ec);
    destruct (Pos.compare_spec ma mb), (Pos.compare_spec mc mb),
    (Pos.compare_spec ma mc);
    cbn [CompOpp]; intros; try discriminate; try reflexivity; lia.
Qed.

Lemma SFcompare_refl (a : spec_float) :
  SFcompare a a = None \/ SFcompare a a = Some Eq.
Proof.
  destruct a as [sa|sa| |sa ma ea]; try destruct sa; cbn [SFcompare]; auto.
  all: fold (Pos.compare ma ma).
  all: rewrite Z.compare_refl, Pos.compare_refl; auto.
Qed.

Lemma ltb_trans (a b c : spec_float) :
  (a <? b)%f64 = true -> (b <? c)%f64 = true -> (a <? c)%f64 = true.
Proof.
  unfold F64.ltb, SFltb. intros Hab Hbc.
  rewrite (SFcompare_lt_trans a b c); [reflexivity | |].
  - destruct (SFcompare a b) as [[]|]; congruence.
  - destruct (SFcompare b c) as [[]|]; congruence.
Qed.

Lemma ltb_eqb (a b c : spec_float) :
  (a <? b)%f64 = true -> F64.eqb c b = true -> (a <? c)%f64 = true.
Proof.
  unfold F64.ltb, F64.eqb, SFltb, SFeqb. intros Hab Hcb.
  rewrite (SFcompare_lt_eq a b c); [reflexivity | |].
  - destruct (SFcompare a b) as [[]|]; congruence.
  - destruct (SFcompare c b) as [[]|]; congruence.
Qed.

Lemma ltb_asym (a b : spec_float) :
  (a <? b)%f64 = true -> (b <? a)%f64 = false.
Proof.
  unfold F64.ltb, SFltb. rewrite (SFcompare_swap a b).
  destruct (SFcompare a b) as [[]|]; cbn; congruence.
Qed.

Lemma ltb_irrefl (a : spec_float) : (a <? a)%f64 = false.
Proof.
  unfold F64.ltb, SFltb.
  destruct (SFcompare_refl a) as [H|H]; rewrite H; reflexivity.
Qed.




(** ** Risk Calculator *)

Lemma bind_ok {A B : Type} (c : res A) (k : A -> res B) (b : B) :
  bind c k = Ok b -> exists a, c = Ok a /\ k a = Ok b.
Proof.
  destruct c as [a|e]; cbn; [eauto | discriminate].
Qed.

Lemma risk_body_inv (d : list (string * value)) (r : risk_data) :
  risk_body d = Ok r ->
  exists l v p,
    field_float d "liquidity" "usd" = Ok l
    /\ field_float d "volume" "h24" = Ok v
    /\ field_float d "priceChange" "h24" = Ok p
    /\ r = mk_risk l v p (risk_formula l v p)
             (min_100 (max_0 (risk_formula l v p * F64.of_Z 10)%f64)).
Proof.
  unfold risk_body. intros H.
  apply bind_ok in H as (l & Hl & H).
  apply bind_ok in H as (v & Hv & H).
  apply bind_ok in H as (p & Hp & H).
  injection H as <-. eauto 8.
Qed.








(** ** Pair Selector *)

Lemma py_float_raises (x : value) (e : exn) :
  py_float x = Raise e -> e = TypeError \/ e = ValueError \/ e = OverflowError.
Proof.
  destruct x; cbn; unfold float_of_int; intros H;
    repeat match type of H with
      | context [if ?c then _ else _] => destruct c
      | context [match ?c with _ => _ end] => destruct c
      end;
    try discriminate H; injection H as <-; auto.
Qed.

(** Away from overflow, one iteration takes the record when its parsed
    liquidity is above the running maximum and changes nothing otherwise. *)
Lemma scan_pair_step (st : option value * spec_float) (p : value) :
  overflows p = false ->
  (snd st <? F64.zero)%f64 = false ->
  scan_pair st p
  = Ok (if (snd st <? parsed_liquidity p)%f64 then (Some p, parsed_liquidity p)
        else st).
Proof.
  intros Hov Hz. unfold scan_pair, parsed_liquidity, overflows in *.
  destruct p; try (rewrite Hz; reflexivity).
  destruct (pair_liquidity d) as [l|e] eqn:Hl.
  - destruct (snd st <? l)%f64; reflexivity.
  - rewrite Hz. unfold pair_liquidity in Hl.
    destruct (py_float_raises _ _ Hl) as [->|[->| ->]];
      [reflexivity | reflexivity | discriminate Hov].
Qed.

Lemma positive_is_dict (p : value) :
  positive_liquidity p = true -> is_dict p = true /\ truthy p = true.
Proof.
  unfold positive_liquidity, parsed_liquidity.
  destruct p; try (cbn; discriminate).
  destruct d as [|kv d]; [cbn; discriminate | auto].
Qed.

Lemma scan_inv_step (seen : list value) (st : option value * spec_float)
  (p : value) :
  scan_inv seen st ->
  scan_inv (seen ++ [p])%list
    (if (snd st <? parsed_liquidity p)%f64 then (Some p, parsed_liquidity p)
     else st).
Proof.
  intros (Hz & Hmax & Hsel).
  destruct (snd st <? parsed_liquidity p)%f64 eqn:Hlt.
  - assert (Hpos : (F64.zero <? parsed_liquidity p)%f64 = true).
    { destruct (fst st) as [p0|].
      - destruct Hsel as (i & _ & _ & Hp0 & _).
        exact (ltb_trans _ _ _ Hp0 Hlt).
      - rewrite Hsel in Hlt. exact Hlt. }
    split; [|split]; cbn [fst snd].
    + exact (ltb_asym _ _ Hpos).
    + intros q Hq. apply in_app_or in Hq as [Hq|[<-|[]]].
      * destruct (parsed_liquidity p <? parsed_liquidity q)%f64 eqn:Hpq;
          [|reflexivity].
        pose proof (Hmax q Hq) as Hm.
        rewrite (ltb_trans _ _ _ Hlt Hpq) in Hm. discriminate.
      * apply ltb_irrefl.
    + exists (List.length seen). split; [|split; [|split]].
      * rewrite nth_error_app2, Nat.sub_diag by lia. reflexivity.
      * reflexivity.
      * exact Hpos.
      * intros j q Hj Hq. rewrite nth_error_app1 in Hq by exact Hj.
        destruct (F64.eqb (parsed_liquidity q) (parsed_liquidity p)) eqn:He;
          [|reflexivity].
        apply nth_error_In in Hq.
        pose proof (Hmax q Hq) as Hm.
        rewrite (ltb_eqb _ _ _ Hlt He) in Hm. discriminate.
  - split; [exact Hz|split].
    + intros q Hq. apply in_app_or in Hq as [Hq|[<-|[]]]; auto.
    + destruct (fst st) as [p0|]; [|exact Hsel].
      destruct Hsel as (i & Hi & Hp0 & Hpos & Hties).
      assert (Hlen : (i < List.length seen)%nat)
        by (apply nth_error_Some; congruence).
      exists i. split; [|split; [|split]]; auto.
      * rewrite nth_error_app1 by exact Hlen. exact Hi.
      * intros j q Hj Hq. rewrite nth_error_app1 in Hq by lia. eauto.
Qed.

Lemma scan_pairs_inv (rest seen : list value)
  (st : option value * spec_float) :
  scan_inv seen st ->
  (forall q, In q rest -> overflows q = false) ->
  exists st', scan_pairs st rest = Ok st' /\ scan_inv (seen ++ rest)%list st'.
Proof.
  revert seen st. induction rest as [|p rest IH]; intros seen st Hinv Hov.
  - exists st. rewrite app_nil_r. auto.
  - cbn [scan_pairs].
    rewrite scan_pair_step by (try apply Hov; try apply Hinv; now left).
    cbn [bind].
    destruct (IH (seen ++ [p])%list _ (scan_inv_step _ _ p Hinv))
      as (st' & Hst' & Hinv').
    { intros q Hq. apply Hov. now right. }
    exists st'. rewrite <- app_assoc in Hinv'. auto.
Qed.

Lemma scan_inv_init : scan_inv [] (None, F64.zero).
Proof.
  split; [reflexivity|split]; [intros q []|reflexivity].
Qed.

(** What [get_main_pair] returns, by the outcome of the scan. *)
Lemma get_main_pair_scan (td : list (string * value)) (pairs : list value) :
  lookup "pairs" td = Some (JList pairs) ->
  (forall q, In q pairs -> overflows q = false) ->
  exists st,
    scan_inv pairs st
    /\ get_main_pair (JDict td)
       = match fst st with
         | Some p => Some p
         | None => fallback_pair pairs
         end.
Proof.
  intros Hp Hov.
  destruct (scan_pairs_inv pairs [] _ scan_inv_init Hov) as (st & Hscan & Hinv).
  cbn [app] in Hinv. exists st. split; [exact Hinv|].
  unfold get_main_pair, dict_get. rewrite Hp.
  destruct pairs as [|first rest].
  - cbn in Hscan. injection Hscan as <-. reflexivity.
  - rewrite Hscan. destruct st as [[p|] mx]; cbn [fst].
    + destruct Hinv as (_ & _ & i & _ & Hpl & Hpos & _). cbn [snd] in *.
      assert (Ht : truthy p = true).
      { apply positive_is_dict. unfold positive_liquidity. now rewrite Hpl. }
      cbn [selected]. rewrite Ht. cbn [selected]. rewrite Ht. reflexivity.
    + cbn [selected fallback_pair].
      destruct (is_dict first); cbn [andb selected]; [|reflexivity].
      destruct (truthy first); reflexivity.
Qed.

Lemma scan_pair_no_overflow (st st' : option value * spec_float) (p : value) :
  scan_pair st p = Ok st' -> overflows p = false.
Proof.
  unfold scan_pair, overflows. destruct p; try reflexivity.
  destruct (pair_liquidity d) as [l|[]]; try reflexivity; discriminate.
Qed.

Lemma scan_pairs_no_overflow (pairs : list value)
  (st st' : option value * spec_float) :
  scan_pairs st pairs = Ok st' ->
  forall q, In q pairs -> overflows q = false.
Proof.
  revert st. induction pairs as [|p pairs IH]; intros st H q Hq.
  - contradiction.
  - cbn in H. apply bind_ok in H as (st1 & Hstep & H).
    destruct Hq as [<-|Hq].
    + exact (scan_pair_no_overflow _ _ _ Hstep).
    + exact (IH _ H q Hq).
Qed.

(** The conversion and the reading of a value agree. *)
Lemma py_float_reading (x : value) :
  match read_value x with
  | Number f => py_float x = Ok f
  | Unparsable => py_float x = Raise TypeError \/ py_float x = Raise ValueError
  | TooLarge => py_float x = Raise OverflowError
  | NoMapping => False
  end.
Proof.
  destruct x as [|b|z|f|s|l|d]; cbn [read_value py_float]; auto.
  - destruct b; reflexivity.
  - unfold float_of_int. destruct (F64.is_infinite (F64.of_Z z)); reflexivity.
  - destruct (str_to_float s); auto.
Qed.

Lemma liquidity_reading_parsed (q : value) :
  parsed_liquidity q = liquidity_or_zero q
  /\ (overflows q = true <-> liquidity_reading q = TooLarge).
Proof.
  unfold parsed_liquidity, overflows, liquidity_or_zero, liquidity_reading,
    pair_liquidity, dict_get.
  destruct q as [| | | | | |d]; try (split; [reflexivity|split; discriminate]).
  destruct (lookup "liquidity" d) as [[| | | | | |ld]|];
    try (split; [reflexivity|split; discriminate]).
  destruct (lookup "usd" ld) as [x|];
    [|split; [reflexivity|split; discriminate]].
  pose proof (py_float_reading x) as Hx.
  destruct (read_value x) as [f| | |].
  - rewrite Hx. split; [reflexivity|split; discriminate].
  - destruct Hx as [-> | ->]; (split; [reflexivity|split; discriminate]).
  - rewrite Hx. split; [reflexivity|split; reflexivity].
  - contradiction.
Qed.

(** C2, as the code has it.  Over a collection in which no record holds an
    integer beyond the float range as its [liquidity.usd]: when some record
    has a positive parsed liquidity, the selector returns a record of the
    collection that no other exceeds and that no earlier record equals;
    when none has, it returns the first record of the collection if that
    one is a mapping with at least one key, and nothing otherwise; so it
    returns no selection exactly when the collection is empty, or no record
    has a positive liquidity and the first record is not such a mapping.
    Over a collection in which some record holds such an integer, the scan
    is aborted and the selector returns no selection.  The parsed liquidity
    of a record is the number found under [liquidity.usd], and 0 when the
    value is missing or unparsable or the entry is no mapping. *)
Theorem pair_selector_choice (td : list (string * value))
  (pairs : list value) :
  lookup "pairs" td = Some (JList pairs) ->
  ((forall q, In q pairs -> overflows q = false) ->
   (existsb positive_liquidity pairs = true ->
    exists i p,
      get_main_pair (JDict td) = Some p
      /\ nth_error pairs i = Some p
      /\ is_dict p = true
      /\ (forall q, In q pairs ->
           (parsed_liquidity p <? parsed_liquidity q)%f64 = false)
      /\ (forall j q, (j < i)%nat -> nth_error pairs j = Some q ->
           F64.eqb (parsed_liquidity q) (parsed_liquidity p) = false))
   /\ (existsb positive_liquidity pairs = false ->
       get_main_pair (JDict td) = fallback_pair pairs)
   /\ (get_main_pair (JDict td) = None <->
       pairs = []
       \/ (existsb positive_liquidity pairs = false
           /\ exists first rest,
                pairs = first :: rest
                /\ (is_dict first && truthy first)%bool = false)))
  /\ ((exists q, In q pairs /\ overflows q = true) ->
      get_main_pair (JDict td) = None)
  /\ (forall q,
        parsed_liquidity q = liquidity_or_zero q
        /\ (overflows q = true <-> liquidity_reading q = TooLarge)).
Proof.
  intros Hp. split; [|split; [|exact liquidity_reading_parsed]].
  2:{ intros (q & Hq & Hov). unfold get_main_pair, dict_get. rewrite Hp.
      destruct pairs as [|first rest]; [reflexivity|].
      destruct (scan_pairs (None, F64.zero) (first :: rest)) as [st|e] eqn:Hs;
        [|reflexivity].
      rewrite (scan_pairs_no_overflow _ _ _ Hs q Hq) in Hov.
      discriminate Hov. }
  intros Hov.
  destruct (get_main_pair_scan td pairs Hp Hov) as (st & Hinv & Hget).
  destruct Hinv as (_ & Hmax & Hsel).
  assert (Hsome : existsb positive_liquidity pairs = true ->
                  exists p, fst st = Some p).
  { intros Hex. apply existsb_exists in Hex as (q & Hq & Hpos).
    destruct (fst st) as [p|]; [eauto|].
    specialize (Hmax q Hq). rewrite Hsel in Hmax.
    unfold positive_liquidity in Hpos. congruence. }
  assert (Hnone : existsb positive_liquidity pairs = false -> fst st = None).
  { intros Hex. destruct (fst st) as [p|]; [|reflexivity].
    destruct Hsel as (i & Hi & Hpl & Hpos & _).
    assert (Habs : existsb positive_liquidity pairs = true).
    { apply existsb_exists. exists p. split; [eapply nth_error_In; eauto|].
      unfold positive_liquidity. now rewrite Hpl. }
    congruence. }
  assert (H1 : existsb positive_liquidity pairs = true ->
    exists i p,
     get_main_pair (JDict td) = Some p
     /\ nth_error pairs i = Some p
     /\ is_dict p = true
     /\ (forall q, In q pairs ->
          (parsed_liquidity p <? parsed_liquidity q)%f64 = false)
     /\ (forall j q, (j < i)%nat -> nth_error pairs j = Some q ->
          F64.eqb (parsed_liquidity q) (parsed_liquidity p) = false)).
  { intros Hex. destruct (Hsome Hex) as (p & Hfst).
    rewrite Hfst in Hsel, Hget. destruct Hsel as (i & Hi & Hpl & Hpos & Hties).
    exists i, p. repeat split; auto.
    - apply positive_is_dict. unfold positive_liquidity. now rewrite Hpl.
    - intros q Hq. rewrite Hpl. auto. }
  assert (H2 : existsb positive_liquidity pairs = false ->
               get_main_pair (JDict td) = fallback_pair pairs).
  { intros Hex. rewrite (Hnone Hex) in Hget. exact Hget. }
  split; [exact H1|split; [exact H2|]].
  split.
  - intros Hn. destruct (existsb positive_liquidity pairs) eqn:Hex.
    + destruct (H1 eq_refl) as (i & p & Hg & _). congruence.
    + rewrite (H2 eq_refl) in Hn. destruct pairs as [|first rest]; [now left|].
      right. split; [reflexivity|]. exists first, rest. split; [reflexivity|].
      cbn in Hn. destruct (is_dict first && truthy first)%bool;
        [discriminate|reflexivity].
  - intros [->|(Hex & first & rest & -> & Hf)].
    + rewrite (H2 eq_refl). reflexivity.
    + rewrite (H2 Hex). cbn [fallback_pair]. rewrite Hf. reflexivity.
Qed.

(** ** Chart Renderer *)

Lemma field_float_reading (d : list (string * value))
  (outer inner : string) :
  match read_field d outer inner with
  | Number f => field_float d outer inner = Ok f
  | Unparsable =>
      field_float d outer inner = Raise TypeError
      \/ field_float d outer inner = Raise ValueError
  | TooLarge => field_float d outer inner = Raise OverflowError
  | NoMapping => field_float d outer inner = Raise AttributeError
  end.
Proof.
  unfold read_field, field_float, dict_get.
  destruct (lookup outer d) as [[| | | | | |ld]|]; try reflexivity.
  cbn [py_get bind]. unfold dict_get.
  destruct (lookup inner ld) as [x|]; [|reflexivity].
  pose proof (py_float_reading x) as Hx.
  destruct (read_value x); [exact Hx|exact Hx|exact Hx|contradiction].
Qed.

(** One iteration of the loop over the windows against the reading of the
    window. *)
Lemma chart_step_reading (d : list (string * value))
  (acc : list spec_float * list spec_float) (tf : string) :
  match window_reading d tf with
  | Some w =>
      chart_step d acc tf
      = Ok ((fst acc ++ [fst w])%list, (snd acc ++ [snd w])%list)
  | None => exists e, chart_step d acc tf = Raise e
  end.
Proof.
  unfold window_reading, chart_step, window_values.
  pose proof (field_float_reading d "priceChange" tf) as Hpc.
  pose proof (field_float_reading d "volume" tf) as Hv.
  destruct (read_field d "priceChange" tf) as [pc| | |].
  - rewrite Hpc. cbn [bind].
    destruct (read_field d "volume" tf) as [v| | |].
    + rewrite Hv. reflexivity.
    + destruct Hv as [-> | ->]; reflexivity.
    + rewrite Hv. eexists. reflexivity.
    + rewrite Hv. eexists. reflexivity.
  - destruct Hpc as [-> | ->]; reflexivity.
  - rewrite Hpc. eexists. reflexivity.
  - rewrite Hpc. eexists. reflexivity.
Qed.

Lemma chart_series_aborts (d : list (string * value)) (tfs : list string)
  (acc : list spec_float * list spec_float) (tf : string) :
  In tf tfs -> window_reading d tf = None ->
  exists e, chart_series d acc tfs = Raise e.
Proof.
  revert acc. induction tfs as [|tf' tfs IH]; intros acc Hin Hnone.
  - contradiction.
  - cbn [chart_series]. destruct Hin as [->|Hin].
    + pose proof (chart_step_reading d acc tf) as Hstep.
      rewrite Hnone in Hstep. destruct Hstep as (e & ->).
      eexists. reflexivity.
    + destruct (chart_step d acc tf') as [acc'|e]; cbn [bind].
      * apply IH; assumption.
      * eexists. reflexivity.
Qed.

Lemma chart_step_lengths (d : list (string * value))
  (acc acc' : list spec_float * list spec_float) (tf : string) :
  chart_step d acc tf = Ok acc' ->
  List.length (fst acc') = S (List.length (fst acc))
  /\ List.length (snd acc') = S (List.length (snd acc)).
Proof.
  unfold chart_step.
  destruct (window_values d tf) as [[pc v]|[]]; intros H;
    try discriminate H; injection H as <-; cbn [fst snd];
    rewrite !length_app; cbn; lia.
Qed.

Lemma chart_series_lengths (d : list (string * value)) (tfs : list string)
  (acc acc' : list spec_float * list spec_float) :
  chart_series d acc tfs = Ok acc' ->
  List.length (fst acc') = (List.length (fst acc) + List.length tfs)%nat
  /\ List.length (snd acc') = (List.length (snd acc) + List.length tfs)%nat.
Proof.
  revert acc. induction tfs as [|tf tfs IH]; intros acc H; cbn in H.
  - injection H as <-. cbn. lia.
  - apply bind_ok in H as (acc1 & Hstep & H).
    apply chart_step_lengths in Hstep as (H1 & H2).
    apply IH in H as (H3 & H4). cbn [List.length]. lia.
Qed.

(** C9, as the code has it.  For a pair record that is a mapping, the four
    windows are read in the order 5 min, 1 hour, 6 hours, 24 hours (keys
    m5, h1, h6, h24), in each window [priceChange] before [volume], an
    absent container and a missing field reading as 0.  When every window
    can be read, the chart that is rendered has the four labels in that
    order on both traces and, window by window, the two numbers read as its
    bar and its line point, or 0 for both of them when the first field of
    the window that is no number is unparsable.  When in some window that
    field is an integer beyond the float range or sits in a container that
    is no mapping, no chart is rendered.  Whatever the input, a chart that
    is returned has exactly 4 bars and 4 line points. *)
Theorem chart_has_four_windows :
  (forall (d : list (string * value)) (token_name : value)
          (w5 w1 w6 w24 : spec_float * spec_float),
      window_reading d "m5" = Some w5 ->
      window_reading d "h1" = Some w1 ->
      window_reading d "h6" = Some w6 ->
      window_reading d "h24" = Some w24 ->
      exists fig,
        generate_plotly_graph (JDict d) token_name true = Some fig
        /\ bar_x fig = ["5 min"; "1 hora"; "6 horas"; "24 horas"]
        /\ line_x fig = ["5 min"; "1 hora"; "6 horas"; "24 horas"]
        /\ bar_y fig = [fst w5; fst w1; fst w6; fst w24]
        /\ line_y fig = [snd w5; snd w1; snd w6; snd w24])
  /\ (forall (d : list (string * value)) (token_name : value)
             (image_ok : bool) (tf : string),
        In tf ["m5"; "h1"; "h6"; "h24"] ->
        window_reading d tf = None ->
        generate_plotly_graph (JDict d) token_name image_ok = None)
  /\ (forall (pair token_name : value) (image_ok : bool) (fig : figure),
        generate_plotly_graph pair token_name image_ok = Some fig ->
        List.length (bar_y fig) = 4%nat /\ List.length (line_y fig) = 4%nat
        /\ List.length (bar_x fig) = 4%nat /\ List.length (line_x fig) = 4%nat).
Proof.
  split; [|split].
  - intros d token_name w5 w1 w6 w24 H5 H1 H6 H24.
    unfold generate_plotly_graph, time_frames. cbn [chart_series].
    pose proof (chart_step_reading d ([], []) "m5") as S5.
    rewrite H5 in S5. rewrite S5. cbn [bind fst snd app].
    pose proof (chart_step_reading d ([fst w5], [snd w5]) "h1") as S1.
    rewrite H1 in S1. rewrite S1. cbn [bind fst snd app].
    pose proof (chart_step_reading d ([fst w5; fst w1], [snd w5; snd w1])
                  "h6") as S6.
    rewrite H6 in S6. rewrite S6. cbn [bind fst snd app].
    pose proof (chart_step_reading d
                  ([fst w5; fst w1; fst w6], [snd w5; snd w1; snd w6])
                  "h24") as S24.
    rewrite H24 in S24. rewrite S24. cbn [bind fst snd app].
    eexists. split; [reflexivity|]. cbn. auto.
  - intros d token_name image_ok tf Hin Hnone.
    unfold generate_plotly_graph.
    destruct (chart_series_aborts d time_frames ([], []) tf Hin Hnone)
      as (e & ->).
    reflexivity.
  - intros pair token_name image_ok fig H.
    unfold generate_plotly_graph in H.
    destruct pair; try discriminate H.
    destruct (chart_series d ([], []) time_frames) as [[pcs vols]|e] eqn:Hs;
      [|discriminate H].
    destruct image_ok; [|discriminate H]. injection H as <-.
    apply chart_series_lengths in Hs as (H1 & H2). cbn in *. auto.
Qed.

(** ** Notifier *)

Lemma send_guard (c : credentials) (message : string)
  (image_buffer : option figure) (o : post_outcome) :
  message = "" \/ TELEGRAM_BOT_TOKEN c = "" \/ TELEGRAM_CHAT_ID c = "" ->
  send_to_telegram c message image_buffer o = ([], Ok false).
Proof.
  unfold send_to_telegram, send_body.
  intros [->|[->| ->]]; cbn [String.eqb orb]; rewrite ?orb_true_r; reflexivity.
Qed.

Lemma send_attempt (c : credentials) (message : string)
  (image_buffer : option figure) (o : post_outcome) :
  message <> "" -> TELEGRAM_BOT_TOKEN c <> "" -> TELEGRAM_CHAT_ID c <> "" ->
  exists req,
    send_to_telegram c message image_buffer o
    = ([req], Ok match o with Answer true => true | _ => false end)
    /\ match image_buffer, req with
       | Some img, SendPhoto _ chat caption photo =>
           chat = TELEGRAM_CHAT_ID c /\ caption = message /\ photo = img
       | None, SendMessage _ chat text =>
           chat = TELEGRAM_CHAT_ID c /\ text = message
       | _, _ => False
       end.
Proof.
  intros Hm Ht Hc. unfold send_to_telegram, send_body.
  apply String.eqb_neq in Hm, Ht, Hc. rewrite Hm, Ht, Hc. cbn [orb].
  eexists. split.
  - destruct o as [|[]|]; reflexivity.
  - destruct image_buffer; auto.
Qed.

(** C8.  The Notifier returns a boolean for every message, image, set of
    credentials and answer of the network: it never raises.  The boolean is
    true only when a request was made and answered with a success status;
    a missing answer, an error status and any other failure give false.
    With an empty message or an empty credential it returns false and makes
    no request. *)
Theorem notifier_returns_boolean (c : credentials) (message : string)
  (image_buffer : option figure) (o : post_outcome) :
  (exists b, snd (send_to_telegram c message image_buffer o) = Ok b)
  /\ (snd (send_to_telegram c message image_buffer o) = Ok true ->
      o = Answer true
      /\ exists req, fst (send_to_telegram c message image_buffer o) = [req])
  /\ (o <> Answer true ->
      snd (send_to_telegram c message image_buffer o) = Ok false)
  /\ (message = "" \/ TELEGRAM_BOT_TOKEN c = "" \/ TELEGRAM_CHAT_ID c = "" ->
      send_to_telegram c message image_buffer o = ([], Ok false)).
Proof.
  assert (Hcases :
    (message = "" \/ TELEGRAM_BOT_TOKEN c = "" \/ TELEGRAM_CHAT_ID c = "")
    \/ (message <> "" /\ TELEGRAM_BOT_TOKEN c <> ""
        /\ TELEGRAM_CHAT_ID c <> "")).
  { destruct (string_dec message "") as [|Hm]; [auto|].
    destruct (string_dec (TELEGRAM_BOT_TOKEN c) "") as [|Ht]; [auto|].
    destruct (string_dec (TELEGRAM_CHAT_ID c) "") as [|Hc]; auto. }
  destruct Hcases as [Hg|(Hm & Ht & Hc)].
  - rewrite (send_guard c message image_buffer o Hg). cbn [fst snd].
    repeat split; eauto; discriminate.
  - destruct (send_attempt c message image_buffer o Hm Ht Hc) as (req & -> & _).
    cbn [fst snd]. repeat split.
    + eauto.
    + destruct o as [|[]|]; congruence.
    + eauto.
    + intros Ho. destruct o as [|[]|]; congruence.
    + intros [H|[H|H]]; contradiction.
Qed.

(** ** Message Formatter *)

Lemma format_message_not_empty (tp : list (string * value)) (r : risk_data) :
  format_message tp r <> "".
Proof.
  unfold format_message. discriminate.
Qed.

(** C10.  The message of the Message Formatter is never empty: with a null
    pair it is one of three fixed messages, none of them empty, and
    otherwise it starts with the fixed heading.  Passed to the Notifier with
    both credentials set, it always leads to a request: the branch that
    refuses an empty message is not taken. *)
Theorem formatter_message_not_empty (token_profile token_data : value) :
  fst (generate_token_info token_profile token_data) <> ""
  /\ (snd (generate_token_info token_profile token_data) = None ->
      fst (generate_token_info token_profile token_data) = MSG_INVALID
      \/ fst (generate_token_info token_profile token_data) = MSG_NO_PAIR
      \/ fst (generate_token_info token_profile token_data) = MSG_RISK_ERROR)
  /\ (MSG_INVALID <> "" /\ MSG_NO_PAIR <> "" /\ MSG_RISK_ERROR <> "")
  /\ (forall (c : credentials) (image_buffer : option figure)
        (o : post_outcome),
        TELEGRAM_BOT_TOKEN c <> "" -> TELEGRAM_CHAT_ID c <> "" ->
        exists req,
          fst (send_to_telegram c
                 (fst (generate_token_info token_profile token_data))
                 image_buffer o) = [req]).
Proof.
  assert (Hne : fst (generate_token_info token_profile token_data) <> "").
  { unfold generate_token_info.
    destruct token_profile; try discriminate.
    destruct token_data; try discriminate.
    destruct (get_main_pair (JDict d0)) as [p|]; [|discriminate].
    destruct (truthy p); [|discriminate]. cbn [negb].
    destruct (calculate_investment_risk p) as [r|]; [|discriminate].
    apply format_message_not_empty. }
  split; [exact Hne|split; [|split]].
  - unfold generate_token_info.
    destruct token_profile; auto. destruct token_data; auto.
    destruct (get_main_pair (JDict d0)) as [p|]; auto.
    destruct (truthy p); auto. cbn [negb].
    destruct (calculate_investment_risk p) as [r|]; auto. discriminate.
  - repeat split; discriminate.
  - intros c image_buffer o Ht Hc.
    destruct (send_attempt c _ image_buffer o Hne Ht Hc) as (req & -> & _).
    exists req. reflexivity.
Qed.

(** ** Discovery Loop *)

Lemma send_shape (c : credentials) (message : string)
  (image_buffer : option figure) (o : post_outcome) :
  send_to_telegram c message image_buffer o = ([], Ok false)
  \/ exists req b, send_to_telegram c message image_buffer o = ([req], Ok b).
Proof.
  destruct (string_dec message "") as [Hm|Hm];
    [left; apply send_guard; auto|].
  destruct (string_dec (TELEGRAM_BOT_TOKEN c) "") as [Ht|Ht];
    [left; apply send_guard; auto|].
  destruct (string_dec (TELEGRAM_CHAT_ID c) "") as [Hc|Hc];
    [left; apply send_guard; auto|].
  right. destruct (send_attempt c message image_buffer o Hm Ht Hc)
    as (req & H & _). eauto.
Qed.

Lemma process_token_events (c : credentials) (st : loop_state)
  (token_profile : value) (a : answers) :
  exists evs,
    step_events st token_profile (process_token c st token_profile a) evs.
Proof.
  assert (Hskip : forall r : res unit,
             exists evs, step_events st token_profile (st, r) evs).
  { intros r. exists []. unfold step_events. cbn. rewrite !app_nil_r. auto. }
  unfold process_token.
  destruct token_profile as [| | | | | |tp]; try apply Hskip.
  set (a0 := dict_get tp "tokenAddress" JNull).
  destruct (negb (truthy a0) || py_in a0 (known_tokens st)
            || is_pump_token a0)%bool eqn:Hg; [apply Hskip|].
  clear Hskip.
  apply orb_false_iff in Hg as [Hg Hpump].
  apply orb_false_iff in Hg as [Htr Hin]. apply negb_false_iff in Htr.
  assert (Hfetched : forall r : res unit,
             exists evs,
               step_events st (JDict tp)
                 (log_calls st [FetchDetails a0], r) evs).
  { intros r. exists [FetchDetails a0]. unfold step_events. cbn.
    rewrite app_nil_r. split; [reflexivity|split; [reflexivity|]].
    right. exists tp, a0. auto 10. }
  destruct (fetch_token_details (details a)) as [token_data|];
    [|apply Hfetched].
  destruct (negb (truthy token_data)); [apply Hfetched|].
  destruct (get_main_pair token_data) as [p|]; [|apply Hfetched].
  destruct (negb (truthy p)); [apply Hfetched|].
  destruct (threshold_liquidity p) as [liq|e]; [|apply Hfetched].
  destruct (liq <? F64.of_Z LIQUIDITY_THRESHOLD)%f64; [apply Hfetched|].
  destruct (generate_token_info (JDict tp) token_data) as [message p'].
  destruct (send_shape c message
              (generate_plotly_graph (or_null p') a0 (image_ok a))
              (telegram a)) as [Hs|(req & b & Hs)]; rewrite Hs.
  - exists [FetchDetails a0]. unfold step_events. cbn. rewrite !app_nil_r.
    split; [reflexivity|split; [reflexivity|]].
    right. exists tp, a0. auto 10.
  - exists [FetchDetails a0; Post a0 req b]. unfold step_events.
    destruct b; cbn; rewrite <- ?app_assoc, ?app_nil_r;
      (split; [reflexivity|split; [reflexivity|]]);
      right; exists tp, a0; repeat split; auto; right; eauto.
Qed.

Lemma alerted_app (l1 l2 : list event) :
  alerted (l1 ++ l2) = (alerted l1 ++ alerted l2)%list.
Proof.
  induction l1 as [|[a|a req [|]] l1 IH]; cbn; rewrite ?IH; reflexivity.
Qed.

Lemma alerted_address (l : list event) (x : value) :
  In x (alerted l) -> exists ev, In ev l /\ event_address ev = x.
Proof.
  induction l as [|[a|a req [|]] l IH]; cbn; intros H.
  - contradiction.
  - destruct (IH H) as (ev & Hev & Ha). eauto.
  - destruct H as [<-|H]; [eexists; split; [left; reflexivity|reflexivity]|].
    destruct (IH H) as (ev & Hev & Ha). eauto.
  - destruct (IH H) as (ev & Hev & Ha). eauto.
Qed.

Lemma fresh_app (l1 l2 known : list value) :
  fresh known l1 -> fresh (known ++ l1) l2 -> fresh known (l1 ++ l2).
Proof.
  revert known. induction l1 as [|x l1 IH]; intros known H1 H2; cbn in *.
  - rewrite app_nil_r in H2. exact H2.
  - destruct H1 as (Hx & H1). split; [exact Hx|].
    apply IH; [exact H1|]. rewrite <- app_assoc. exact H2.
Qed.

Lemma py_in_app (x : value) (l1 l2 : list value) :
  py_in x (l1 ++ l2) = (py_in x l1 || py_in x l2)%bool.
Proof. apply existsb_app. Qed.

Lemma fresh_nth (l known : list value) :
  fresh known l ->
  forall j y, nth_error l j = Some y ->
    py_in y known = false
    /\ forall i x, (i < j)%nat -> nth_error l i = Some x -> py_eq x y = false.
Proof.
  revert known. induction l as [|x0 l IH]; intros known Hf j y Hj.
  - destruct j; discriminate Hj.
  - destruct Hf as (Hx0 & Hf). destruct j as [|j]; cbn in Hj.
    + injection Hj as <-. split; [exact Hx0|]. intros i x Hi. lia.
    + destruct (IH _ Hf j y Hj) as (Hin & Hlt).
      rewrite py_in_app in Hin. apply orb_false_iff in Hin as (Hk & Hx).
      cbn in Hx. rewrite orb_false_r in Hx.
      split; [exact Hk|]. intros [|i] x Hi Hx'; cbn in Hx'.
      * injection Hx' as <-. exact Hx.
      * apply (Hlt i x); [lia|exact Hx'].
Qed.

Lemma extends_refl (v : list value * list event) : extends v v.
Proof.
  exists []. cbn. rewrite !app_nil_r. auto.
Qed.

Lemma extends_trans (v1 v2 v3 : list value * list event) :
  extends v1 v2 -> extends v2 v3 -> extends v1 v3.
Proof.
  intros (e1 & Ht1 & Hk1 & Hf1 & Hp1) (e2 & Ht2 & Hk2 & Hf2 & Hp2).
  exists (e1 ++ e2)%list. rewrite alerted_app.
  split; [|split; [|split]].
  - rewrite Ht2, Ht1, app_assoc. reflexivity.
  - rewrite Hk2, Hk1, app_assoc. reflexivity.
  - apply fresh_app; [exact Hf1|]. rewrite <- Hk1. exact Hf2.
  - apply Forall_app. auto.
Qed.

Lemma process_token_extends (c : credentials) (st : loop_state)
  (token_profile : value) (a : answers) :
  extends (view st) (view (fst (process_token c st token_profile a))).
Proof.
  destruct (process_token_events c st token_profile a)
    as (evs & Ht & Hk & Hcases).
  exists evs. unfold view. cbn [fst snd].
  split; [exact Ht|split; [exact Hk|]].
  destruct Hcases as [->|(tp & a0 & _ & _ & _ & Hin & Hpump & Hevs)].
  - cbn. auto.
  - destruct Hevs as [->|(req & [|] & -> & _)]; cbn; auto.
Qed.

Lemma process_tokens_extends (c : credentials) (env : nat -> answers)
  (token_profiles : list value) (i : nat) (st : loop_state) :
  extends (view st)
    (view (fst (process_tokens c env i token_profiles st))).
Proof.
  revert i st. induction token_profiles as [|tp rest IH]; intros i st.
  - apply extends_refl.
  - cbn [process_tokens].
    pose proof (process_token_extends c st tp (env i)) as Hstep.
    destruct (process_token c st tp (env i)) as [st' [u|e]]; cbn [fst] in *.
    + eapply extends_trans; [exact Hstep|apply IH].
    + exact Hstep.
Qed.

Lemma process_new_tokens_extends (c : credentials) (known : list value)
  (tr : list event) (inp : pass_input) :
  extends (known, tr) (view (fst (process_new_tokens c known tr inp))).
Proof.
  unfold process_new_tokens.
  destruct (fetch_token_profiles (profiles inp)) as [|tp rest].
  - apply extends_refl.
  - pose proof (process_tokens_extends c (env inp) (tp :: rest) 0
                  (mk_state known 0 tr)) as H.
    destruct (process_tokens c (env inp) 0 (tp :: rest) (mk_state known 0 tr))
      as [st [u|e]]; exact H.
Qed.

Lemma main_extends (c : credentials) (passes : list pass_input)
  (known : list value) (tr : list event) :
  extends (known, tr) (main c passes known tr).
Proof.
  revert known tr. induction passes as [|inp rest IH]; intros known tr.
  - apply extends_refl.
  - cbn [main].
    pose proof (process_new_tokens_extends c known tr inp) as H.
    destruct (process_new_tokens c known tr inp) as [st r].
    eapply extends_trans; [exact H|apply IH].
Qed.

(** *** The excluded ending *)

Lemma lower_app (s t : string) : lower (s ++ t) = lower s ++ lower t.
Proof.
  induction s as [|ch s IH]; cbn; [reflexivity|now rewrite IH].
Qed.

Lemma endswith_app (pre suffix : string) :
  endswith (pre ++ suffix) suffix = true.
Proof.
  induction pre as [|ch pre IH]; cbn [append].
  - destruct suffix; cbn [endswith]; rewrite String.eqb_refl; reflexivity.
  - cbn [endswith]. rewrite IH. apply orb_true_r.
Qed.

Lemma is_pump_token_ending (s : string) :
  ends_with_pump s -> is_pump_token (JStr s) = true.
Proof.
  intros (pre & c1 & c2 & c3 & c4 & -> & H1 & H2 & H3 & H4).
  unfold is_pump_token. rewrite lower_app.
  replace (lower (String c1 (String c2 (String c3 (String c4 "")))))
    with "pump"
    by (destruct H1 as [-> | ->], H2 as [-> | ->], H3 as [-> | ->],
          H4 as [-> | ->]; reflexivity).
  apply endswith_app.
Qed.

(** The converse: what [is_pump_token] accepts ends with the four letters. *)
Lemma lower_char_letter (c lo : ascii) :
  (65 <= nat_of_ascii lo - 32 <= 90)%nat ->
  lower_char c = lo ->
  c = lo \/ c = ascii_of_nat (nat_of_ascii lo - 32).
Proof.
  unfold lower_char. intros Hlo.
  destruct (Nat.leb 65 (nat_of_ascii c) && Nat.leb (nat_of_ascii c) 90)%bool
    eqn:Hup; intros H; [right|now left].
  rewrite <- H, nat_ascii_embedding.
  - rewrite Nat.add_sub. symmetry. apply ascii_nat_embedding.
  - apply andb_true_iff in Hup as (_ & Hup). apply Nat.leb_le in Hup. lia.
Qed.

Lemma endswith_split (s suffix : string) :
  endswith s suffix = true -> exists pre, s = pre ++ suffix.
Proof.
  induction s as [|ch s IH]; cbn [endswith]; intros H.
  - apply orb_true_iff in H as [H|H]; [|discriminate].
    apply String.eqb_eq in H. exists "". exact H.
  - apply orb_true_iff in H as [H|H].
    + apply String.eqb_eq in H. exists "". exact H.
    + destruct (IH H) as (pre & ->). exists (String ch pre). reflexivity.
Qed.

Lemma lower_split (s t1 t2 : string) :
  lower s = t1 ++ t2 ->
  exists s1 s2, s = s1 ++ s2 /\ lower s1 = t1 /\ lower s2 = t2.
Proof.
  revert s. induction t1 as [|ch t1 IH]; intros s H.
  - exists "", s. auto.
  - destruct s as [|c s]; [discriminate H|].
    cbn in H. injection H as Hc H.
    destruct (IH s H) as (s1 & s2 & -> & H1 & H2).
    exists (String c s1), s2. cbn. rewrite Hc, H1. auto.
Qed.

Lemma is_pump_token_ending_inv (s : string) :
  is_pump_token (JStr s) = true -> ends_with_pump s.
Proof.
  unfold is_pump_token. intros H.
  apply endswith_split in H as (pre & H).
  apply lower_split in H as (s1 & s2 & -> & _ & H).
  destruct s2 as [|c1 [|c2 [|c3 [|c4 [|c5 s2]]]]]; try discriminate H.
  cbn in H. injection H as H1 H2 H3 H4.
  exists s1, c1, c2, c3, c4. split; [reflexivity|].
  repeat split; apply lower_char_letter; (cbn; lia) || assumption.
Qed.

Lemma process_token_skips (c : credentials) (st : loop_state)
  (tp : list (string * value)) (a : answers) :
  (negb (truthy (dict_get tp "tokenAddress" JNull))
   || py_in (dict_get tp "tokenAddress" JNull) (known_tokens st)
   || is_pump_token (dict_get tp "tokenAddress" JNull))%bool = true ->
  process_token c st (JDict tp) a = (st, Ok tt).
Proof.
  intros H. unfold process_token. rewrite H. reflexivity.
Qed.

(** C6.  An address that ends with "pump", each letter in either case, is
    recognised by [is_pump_token]; the loop skips its profile without a
    call, whatever the answers of the network would be; and over any
    number of passes no call is made for it and it does not enter the known
    tokens. *)
Theorem pump_tokens_always_skipped (s : string) :
  ends_with_pump s ->
  is_pump_token (JStr s) = true
  /\ (forall (c : credentials) (st : loop_state)
        (tp : list (string * value)) (a : answers),
        dict_get tp "tokenAddress" JNull = JStr s ->
        process_token c st (JDict tp) a = (st, Ok tt))
  /\ (forall (c : credentials) (passes : list pass_input)
        (known : list value) (tr : list event) (ev : event),
        In ev (snd (main c passes known tr)) ->
        In ev tr \/ event_address ev <> JStr s)
  /\ (forall (c : credentials) (passes : list pass_input)
        (known : list value) (tr : list event),
        In (JStr s) (fst (main c passes known tr)) -> In (JStr s) known).
Proof.
  intros Hs. pose proof (is_pump_token_ending s Hs) as Hpump.
  split; [exact Hpump|split; [|split]].
  - intros c st tp a Ha. apply process_token_skips.
    rewrite Ha, Hpump. apply orb_true_r.
  - intros c passes known tr ev Hev.
    destruct (main_extends c passes known tr) as (evs & Ht & _ & _ & Hp).
    cbn [fst snd] in Ht. rewrite Ht in Hev.
    apply in_app_or in Hev as [Hev|Hev]; [now left|right].
    rewrite Forall_forall in Hp. specialize (Hp ev Hev).
    intros Heq. rewrite Heq in Hp. congruence.
  - intros c passes known tr Hin.
    destruct (main_extends c passes known tr) as (evs & _ & Hk & _ & Hp).
    cbn [fst snd] in Hk. rewrite Hk in Hin.
    apply in_app_or in Hin as [Hin|Hin]; [exact Hin|exfalso].
    apply alerted_address in Hin as (ev & Hev & Ha).
    rewrite Forall_forall in Hp. specialize (Hp ev Hev).
    rewrite Ha in Hp. congruence.
Qed.

(** *** The liquidity threshold *)

Lemma threshold_parsed (d : list (string * value)) (liq : spec_float) :
  threshold_liquidity (JDict d) = Ok liq -> parsed_liquidity (JDict d) = liq.
Proof.
  unfold threshold_liquidity, parsed_liquidity, pair_liquidity.
  cbn [py_get bind].
  destruct (dict_get d "liquidity" (JDict [])); cbn [py_get bind];
    try discriminate.
  intros ->. reflexivity.
Qed.

(** C7.  When the main pair selected for a candidate has a parsed
    liquidity strictly below the threshold of 5000, the iteration leaves
    the known tokens and the count of sent tokens as they were, and none of
    the calls it makes is a post. *)
Theorem below_threshold_not_sent (c : credentials) (st : loop_state)
  (tp : list (string * value)) (a : answers) (token_data p : value) :
  fetch_token_details (details a) = Some token_data ->
  get_main_pair token_data = Some p ->
  (parsed_liquidity p <? F64.of_Z 5000)%f64 = true ->
  LIQUIDITY_THRESHOLD = 5000
  /\ known_tokens (fst (process_token c st (JDict tp) a)) = known_tokens st
  /\ tokens_sent (fst (process_token c st (JDict tp) a)) = tokens_sent st
  /\ exists evs,
       trace (fst (process_token c st (JDict tp) a)) = (trace st ++ evs)%list
       /\ Forall (fun ev => is_post ev = false) evs.
Proof.
  intros Hfetch Hget Hlow. split; [reflexivity|].
  change (quiet_step st (process_token c st (JDict tp) a)).
  unfold process_token.
  destruct (negb (truthy (dict_get tp "tokenAddress" JNull))
            || py_in (dict_get tp "tokenAddress" JNull) (known_tokens st)
            || is_pump_token (dict_get tp "tokenAddress" JNull))%bool.
  { repeat split. exists []. cbn. rewrite app_nil_r. auto. }
  assert (Hdone : forall r : res unit,
    quiet_step st
      (log_calls st [FetchDetails (dict_get tp "tokenAddress" JNull)], r)).
  { intros r. repeat split. eexists. split; [reflexivity|].
    repeat constructor. }
  rewrite Hfetch. destruct (negb (truthy token_data)); [apply Hdone|].
  rewrite Hget. destruct (negb (truthy p)); [apply Hdone|].
  destruct (threshold_liquidity p) as [liq|e] eqn:Hliq; [|apply Hdone].
  destruct p; try discriminate Hliq.
  apply threshold_parsed in Hliq. rewrite Hliq in Hlow.
  unfold LIQUIDITY_THRESHOLD. rewrite Hlow. apply Hdone.
Qed.

(** *** Known tokens *)

Lemma process_token_fetches (c : credentials) (st : loop_state)
  (tp : list (string * value)) (a : answers) :
  truthy (dict_get tp "tokenAddress" JNull) = true ->
  py_in (dict_get tp "tokenAddress" JNull) (known_tokens st) = false ->
  is_pump_token (dict_get tp "tokenAddress" JNull) = false ->
  exists evs,
    trace (fst (process_token c st (JDict tp) a))
    = (trace st ++ FetchDetails (dict_get tp "tokenAddress" JNull) :: evs)%list.
Proof.
  intros Htr Hin Hpump. unfold process_token.
  rewrite Htr, Hin, Hpump. cbn [negb orb].
  assert (Hfetched : forall r : res unit, exists evs,
    trace
      (fst (log_calls st [FetchDetails (dict_get tp "tokenAddress" JNull)], r))
    = (trace st ++ FetchDetails (dict_get tp "tokenAddress" JNull) :: evs)%list)
    by (intros r; exists []; reflexivity).
  destruct (fetch_token_details (details a)) as [token_data|];
    [|apply Hfetched].
  destruct (negb (truthy token_data)); [apply Hfetched|].
  destruct (get_main_pair token_data) as [p|]; [|apply Hfetched].
  destruct (negb (truthy p)); [apply Hfetched|].
  destruct (threshold_liquidity p) as [liq|e]; [|apply Hfetched].
  destruct (liq <? F64.of_Z LIQUIDITY_THRESHOLD)%f64; [apply Hfetched|].
  destruct (generate_token_info (JDict tp) token_data) as [message p'].
  destruct (send_to_telegram c message _ (telegram a)) as [requests [[|]|e]];
    cbn; rewrite <- ?app_assoc; eexists; reflexivity.
Qed.

(** C5.  Started with no known token, after any number of passes the known
    tokens are exactly the addresses of the posts that succeeded, in order;
    no two of them are equal, so an address is alerted on at most once.
    From any state the passes only add to the known tokens, and what they
    add are the addresses of the successful posts they made.  A profile
    whose address is already known is skipped without a call.  When the
    post for an address fails the known tokens stay as they were, and the
    next time the profile is seen its details are fetched again. *)
Theorem alerted_at_most_once (c : credentials) :
  (forall (passes : list pass_input),
      fst (main c passes [] []) = alerted (snd (main c passes [] []))
      /\ (forall (i j : nat) (x y : value),
            (i < j)%nat ->
            nth_error (alerted (snd (main c passes [] []))) i = Some x ->
            nth_error (alerted (snd (main c passes [] []))) j = Some y ->
            py_eq x y = false)
      /\ (forall (s : string) (i j : nat),
            nth_error (alerted (snd (main c passes [] []))) i = Some (JStr s) ->
            nth_error (alerted (snd (main c passes [] []))) j = Some (JStr s) ->
            i = j))
  /\ (forall (passes : list pass_input) (known : list value)
        (tr : list event),
        exists evs,
          snd (main c passes known tr) = (tr ++ evs)%list
          /\ fst (main c passes known tr) = (known ++ alerted evs)%list)
  /\ (forall (st : loop_state) (tp : list (string * value)) (a : answers),
        py_in (dict_get tp "tokenAddress" JNull) (known_tokens st) = true ->
        process_token c st (JDict tp) a = (st, Ok tt))
  /\ (forall (st : loop_state) (tp : list (string * value)) (a : answers)
        (evs : list event) (x : value) (req : request),
        trace (fst (process_token c st (JDict tp) a)) = (trace st ++ evs)%list ->
        In (Post x req false) evs ->
        known_tokens (fst (process_token c st (JDict tp) a)) = known_tokens st
        /\ forall a' : answers,
             exists evs',
               trace (fst (process_token c
                             (fst (process_token c st (JDict tp) a))
                             (JDict tp) a'))
               = (trace (fst (process_token c st (JDict tp) a))
                  ++ FetchDetails x :: evs')%list).
Proof.
  split; [|split; [|split]].
  - intros passes.
    destruct (main_extends c passes [] []) as (evs & Ht & Hk & Hf & _).
    cbn [fst snd app] in Ht, Hk, Hf. rewrite Ht, Hk.
    assert (Hdistinct : forall (i j : nat) (x y : value),
              (i < j)%nat ->
              nth_error (alerted evs) i = Some x ->
              nth_error (alerted evs) j = Some y -> py_eq x y = false).
    { intros i j x y Hij Hx Hy.
      destruct (fresh_nth _ _ Hf j y Hy) as (_ & Hlt). eauto. }
    split; [reflexivity|split; [exact Hdistinct|]].
    intros s i j Hi Hj.
    assert (Hrefl : py_eq (JStr s) (JStr s) = true)
      by (cbn; apply String.eqb_refl).
    destruct (Nat.lt_trichotomy i j) as [Hlt|[Heq|Hgt]]; [|exact Heq|].
    + rewrite (Hdistinct i j _ _ Hlt Hi Hj) in Hrefl. discriminate.
    + rewrite (Hdistinct j i _ _ Hgt Hj Hi) in Hrefl. discriminate.
  - intros passes known tr.
    destruct (main_extends c passes known tr) as (evs & Ht & Hk & _).
    eauto.
  - intros st tp a Hin. apply process_token_skips.
    rewrite Hin. rewrite orb_true_r. reflexivity.
  - intros st tp a evs x req Ht Hpost.
    destruct (process_token_events c st (JDict tp) a)
      as (evs0 & Ht0 & Hk0 & Hcases).
    rewrite Ht0 in Ht. apply app_inv_head in Ht. subst evs0.
    destruct Hcases as [->|(tp' & a0 & Htp & Ha0 & Htr & Hin & Hpump & Hevs)];
      [contradiction|].
    injection Htp as <-.
    assert (Hx : x = a0 /\ alerted evs = []).
    { destruct Hevs as [->|(req' & ok & -> & _)].
      - destruct Hpost as [Hp|[]]. discriminate Hp.
      - destruct Hpost as [Hp|[Hp|[]]]; [discriminate Hp|].
        injection Hp as E1 E2 E3. subst. auto. }
    destruct Hx as (-> & Hnone). rewrite Hnone, app_nil_r in Hk0.
    split; [exact Hk0|]. intros a'. subst a0.
    apply process_token_fetches; [exact Htr| |exact Hpump].
    rewrite Hk0. exact Hin.
Qed.

(** * Further properties of the code *)

(** ** The selector and the threshold conversion *)

Lemma scan_pairs_result (pairs : list value) (st : option value * spec_float) :
  scan_pairs (None, F64.zero) pairs = Ok st -> scan_inv pairs st.
Proof.
  intros H.
  destruct (scan_pairs_inv pairs [] _ scan_inv_init
              (scan_pairs_no_overflow _ _ _ H)) as (st' & Hst' & Hinv).
  rewrite H in Hst'. injection Hst' as <-. exact Hinv.
Qed.

Lemma get_main_pair_candidates (td : list (string * value)) (p : value) :
  get_main_pair (JDict td) = Some p ->
  In p (candidate_pairs td)
  /\ (forall q, In q (candidate_pairs td) -> overflows q = false)
  /\ ((positive_liquidity p = true)
      \/ (is_dict p = true /\ truthy p = true
          /\ forall q, In q (candidate_pairs td) ->
               positive_liquidity q = false)).
Proof.
  unfold get_main_pair.
  change (match dict_get td "pairs" (JList []) with
          | JList l => l
          | _ => [JDict td]
          end) with (candidate_pairs td).
  destruct (candidate_pairs td) as [|first rest] eqn:Hc; [discriminate|].
  rewrite <- Hc.
  destruct (scan_pairs (None, F64.zero) (candidate_pairs td))
    as [[mp mx]|e] eqn:Hs; [|discriminate].
  pose proof (scan_pairs_no_overflow _ _ _ Hs) as Hov.
  apply scan_pairs_result in Hs. destruct Hs as (_ & Hmax & Hsel).
  cbn [fst snd] in *.
  destruct mp as [p0|].
  - destruct Hsel as (i & Hi & Hpl & Hpos & _).
    assert (Hpp : positive_liquidity p0 = true)
      by (unfold positive_liquidity; now rewrite Hpl).
    destruct (positive_is_dict _ Hpp) as (_ & Ht).
    cbn [selected]. rewrite Ht. cbn [selected]. rewrite Ht.
    intros H. injection H as <-.
    split; [eapply nth_error_In; eauto|]. split; [exact Hov|now left].
  - cbn [selected]. destruct (is_dict first) eqn:Hd; [|discriminate].
    cbn [selected]. destruct (truthy first) eqn:Ht; [|discriminate].
    intros H. injection H as <-.
    split; [rewrite Hc; now left|]. split; [exact Hov|right].
    repeat split; auto. intros q Hq. unfold positive_liquidity.
    rewrite <- Hsel. auto.
Qed.

Lemma threshold_of_positive (p : value) :
  positive_liquidity p = true ->
  threshold_liquidity p = Ok (parsed_liquidity p).
Proof.
  unfold positive_liquidity, parsed_liquidity, threshold_liquidity,
    pair_liquidity.
  destruct p; try (cbn; discriminate).
  cbn [py_get bind].
  destruct (dict_get d "liquidity" (JDict [])); try (cbn; discriminate).
  cbn [py_get bind].
  destruct (py_float (dict_get d0 "usd" (JInt 0))); [reflexivity|].
  cbn. discriminate.
Qed.

Lemma threshold_overflow (d : list (string * value)) :
  threshold_liquidity (JDict d) = Raise OverflowError ->
  overflows (JDict d) = true.
Proof.
  unfold threshold_liquidity, overflows, pair_liquidity. cbn [py_get bind].
  destruct (dict_get d "liquidity" (JDict [])); cbn [py_get bind];
    try discriminate.
  intros ->. reflexivity.
Qed.

(** X1.  Whatever document it is given, [get_main_pair] returns either
    nothing or one of the records it scanned, and that record is a dict with
    at least one key: it never returns a record that is not a mapping and
    never one from outside the collection. *)
Theorem selected_pair_is_scanned_record (token_data p : value) :
  get_main_pair token_data = Some p ->
  is_dict p = true
  /\ truthy p = true
  /\ exists td, token_data = JDict td /\ In p (candidate_pairs td).
Proof.
  intros H. destruct token_data; try discriminate H.
  destruct (get_main_pair_candidates _ _ H) as (Hin & _ & Hcases).
  assert (Hd : is_dict p = true /\ truthy p = true).
  { destruct Hcases as [Hpos|(Hd & Ht & _)]; [|auto].
    apply positive_is_dict, Hpos. }
  destruct Hd as (Hd & Ht). repeat split; auto. eauto.
Qed.

(** X2.  A pair that the selector chose for its positive liquidity passes
    the conversion before the threshold test with the very number the
    selector read: that conversion can raise only for a pair returned by
    the fallback, and then never with [OverflowError]. *)
Theorem threshold_conversion_of_selected_pair (token_data p : value) :
  get_main_pair token_data = Some p ->
  (positive_liquidity p = true ->
   threshold_liquidity p = Ok (parsed_liquidity p))
  /\ (forall e, threshold_liquidity p = Raise e ->
        positive_liquidity p = false
        /\ (e = TypeError \/ e = ValueError \/ e = AttributeError)
        /\ exists td, token_data = JDict td
             /\ forall q, In q (candidate_pairs td) ->
                  positive_liquidity q = false).
Proof.
  intros H. split; [apply threshold_of_positive|].
  intros e He. destruct token_data; try discriminate H.
  destruct (get_main_pair_candidates _ _ H) as (Hin & Hov & Hcases).
  destruct Hcases as [Hpos|(Hd & Ht & Hnone)].
  { rewrite (threshold_of_positive _ Hpos) in He. discriminate. }
  split; [exact (Hnone p Hin)|]. split; [|eauto].
  destruct p; try discriminate Hd.
  destruct e; auto; exfalso.
  - apply threshold_overflow in He. rewrite (Hov _ Hin) in He. discriminate.
  - revert He. unfold threshold_liquidity. cbn [py_get bind].
    destruct (dict_get d0 "liquidity" (JDict [])); cbn [py_get bind];
      try discriminate.
    intros He. apply py_float_raises in He as [He|[He|He]]; discriminate.
  - revert He. unfold threshold_liquidity. cbn [py_get bind].
    destruct (dict_get d0 "liquidity" (JDict [])); cbn [py_get bind];
      try discriminate.
    intros He. apply py_float_raises in He as [He|[He|He]]; discriminate.
  - revert He. unfold threshold_liquidity. cbn [py_get bind].
    destruct (dict_get d0 "liquidity" (JDict [])); cbn [py_get bind];
      try discriminate.
    intros He. apply py_float_raises in He as [He|[He|He]]; discriminate.
Qed.

(** ** What one iteration of the loop can do *)

Lemma send_request_shape (c : credentials) (message : string)
  (image_buffer : option figure) (o : post_outcome) (req : request)
  (ok : bool) :
  send_to_telegram c message image_buffer o = ([req], Ok ok) ->
  request_text req = message
  /\ request_chat req = TELEGRAM_CHAT_ID c
  /\ request_photo req = image_buffer
  /\ ok = match o with Answer true => true | _ => false end.
Proof.
  intros H.
  destruct (string_dec message "") as [Hm|Hm];
    [rewrite send_guard in H by auto; discriminate H|].
  destruct (string_dec (TELEGRAM_BOT_TOKEN c) "") as [Ht|Ht];
    [rewrite send_guard in H by auto; discriminate H|].
  destruct (string_dec (TELEGRAM_CHAT_ID c) "") as [Hc|Hc];
    [rewrite send_guard in H by auto; discriminate H|].
  destruct (send_attempt c message image_buffer o Hm Ht Hc)
    as (req' & Hsend & Hshape).
  rewrite Hsend in H. injection H as -> <-.
  destruct image_buffer as [img|], req as [url chat caption photo|url chat text];
    try contradiction.
  - destruct Hshape as (-> & -> & ->). auto.
  - destruct Hshape as (-> & ->). auto.
Qed.

Lemma process_token_post (c : credentials) (st : loop_state)
  (token_profile : value) (a : answers) (evs : list event) (x : value)
  (req : request) (ok : bool) :
  trace (fst (process_token c st token_profile a)) = (trace st ++ evs)%list ->
  In (Post x req ok) evs ->
  exists tp token_data p liq,
    token_profile = JDict tp
    /\ x = dict_get tp "tokenAddress" JNull
    /\ fetch_token_details (details a) = Some token_data
    /\ get_main_pair token_data = Some p
    /\ threshold_liquidity p = Ok liq
    /\ (liq <? F64.of_Z LIQUIDITY_THRESHOLD)%f64 = false
    /\ send_to_telegram c
         (fst (generate_token_info token_profile token_data))
         (generate_plotly_graph
            (or_null (snd (generate_token_info token_profile token_data)))
            x (image_ok a))
         (telegram a)
       = ([req], Ok ok).
Proof.
  assert (Hnone : forall l : list event,
            (trace st ++ l)%list = (trace st ++ evs)%list ->
            (forall ev, In ev l -> is_post ev = false) ->
            In (Post x req ok) evs -> False).
  { intros l Hl Hno Hin. apply app_inv_head in Hl. subst l.
    specialize (Hno _ Hin). discriminate. }
  unfold process_token.
  destruct token_profile as [| | | | | |tp];
    try (cbn; intros Ht Hin; exfalso; apply (Hnone []);
         [rewrite app_nil_r; exact Ht|intros ev []|exact Hin]).
  destruct (negb (truthy (dict_get tp "tokenAddress" JNull))
            || py_in (dict_get tp "tokenAddress" JNull) (known_tokens st)
            || is_pump_token (dict_get tp "tokenAddress" JNull))%bool.
  { cbn; intros Ht Hin; exfalso; apply (Hnone []);
      [rewrite app_nil_r; exact Ht|intros ev []|exact Hin]. }
  set (a0 := dict_get tp "tokenAddress" JNull).
  assert (Hfetched : forall r : res unit,
    trace (fst (log_calls st [FetchDetails a0], r)) = (trace st ++ evs)%list ->
    In (Post x req ok) evs -> False).
  { cbn. intros _ Ht Hin. apply (Hnone [FetchDetails a0] Ht); [|exact Hin].
    intros ev [<-|[]]. reflexivity. }
  destruct (fetch_token_details (details a)) as [token_data|] eqn:Hfd;
    [|intros Ht Hin; destruct (Hfetched _ Ht Hin)].
  destruct (negb (truthy token_data));
    [intros Ht Hin; destruct (Hfetched _ Ht Hin)|].
  destruct (get_main_pair token_data) as [p|] eqn:Hgm;
    [|intros Ht Hin; destruct (Hfetched _ Ht Hin)].
  destruct (negb (truthy p)); [intros Ht Hin; destruct (Hfetched _ Ht Hin)|].
  destruct (threshold_liquidity p) as [liq|e] eqn:Hth;
    [|intros Ht Hin; destruct (Hfetched _ Ht Hin)].
  destruct (liq <? F64.of_Z LIQUIDITY_THRESHOLD)%f64 eqn:Hliq;
    [intros Ht Hin; destruct (Hfetched _ Ht Hin)|].
  destruct (generate_token_info (JDict tp) token_data) as [message p']
    eqn:Hgti.
  cbn [fst snd].
  destruct (send_shape c message
              (generate_plotly_graph (or_null p') a0 (image_ok a))
              (telegram a)) as [Hs|(req' & b & Hs)]; rewrite Hs.
  - cbn. rewrite app_nil_r. intros Ht Hin. destruct (Hfetched (Ok tt) Ht Hin).
  - intros Ht Hin.
    assert (Hevs : evs = [FetchDetails a0; Post a0 req' b]).
    { destruct b; cbn in Ht; rewrite <- app_assoc in Ht;
        apply app_inv_head in Ht; now subst evs. }
    subst evs. destruct Hin as [Hin|[Hin|[]]]; [discriminate Hin|].
    injection Hin as <- <- <-.
    exists tp, token_data, p, liq. rewrite Hgti. repeat split; auto.
Qed.

(** X4.  A post is made only for a candidate whose details were fetched,
    whose main pair was selected and whose liquidity, as converted before
    the threshold test, is not below 5000. *)
Theorem post_only_above_threshold (c : credentials) (st : loop_state)
  (token_profile : value) (a : answers) (evs : list event) (x : value)
  (req : request) (ok : bool) :
  trace (fst (process_token c st token_profile a)) = (trace st ++ evs)%list ->
  In (Post x req ok) evs ->
  exists tp token_data p liq,
    token_profile = JDict tp
    /\ x = dict_get tp "tokenAddress" JNull
    /\ fetch_token_details (details a) = Some token_data
    /\ get_main_pair token_data = Some p
    /\ threshold_liquidity p = Ok liq
    /\ (liq <? F64.of_Z 5000)%f64 = false.
Proof.
  intros Ht Hin.
  destruct (process_token_post c st token_profile a evs x req ok Ht Hin)
    as (tp & token_data & p & liq & H1 & H2 & H3 & H4 & H5 & H6 & _).
  exists tp, token_data, p, liq. auto 10.
Qed.

(** X5.  The request of a post carries the message of the formatter for
    the profile and the fetched details, goes to the configured chat, is a
    photo upload with the rendered chart exactly when the renderer returned
    one and a text message otherwise, and counts as sent exactly when the
    endpoint answered with a success status. *)
Theorem post_carries_formatter_message (c : credentials) (st : loop_state)
  (token_profile : value) (a : answers) (evs : list event) (x : value)
  (req : request) (ok : bool) :
  trace (fst (process_token c st token_profile a)) = (trace st ++ evs)%list ->
  In (Post x req ok) evs ->
  exists token_data,
    fetch_token_details (details a) = Some token_data
    /\ request_text req = fst (generate_token_info token_profile token_data)
    /\ request_chat req = TELEGRAM_CHAT_ID c
    /\ request_photo req
       = generate_plotly_graph
           (or_null (snd (generate_token_info token_profile token_data)))
           x (image_ok a)
    /\ (ok = true <-> telegram a = Answer true).
Proof.
  intros Ht Hin.
  destruct (process_token_post c st token_profile a evs x req ok Ht Hin)
    as (tp & token_data & p & liq & _ & _ & Hf & _ & _ & _ & Hsend).
  exists token_data. split; [exact Hf|].
  apply send_request_shape in Hsend as (H1 & H2 & H3 & H4).
  repeat split; auto.
  - intros ->. destruct (telegram a) as [|[]|]; congruence.
  - intros Ho. rewrite Ho in H4. exact H4.
Qed.

(** ** A pass as a whole *)

Lemma process_token_counter (c : credentials) (st : loop_state)
  (token_profile : value) (a : answers) :
  (tokens_sent (fst (process_token c st token_profile a))
   + List.length (known_tokens st)
   = tokens_sent st
     + List.length (known_tokens (fst (process_token c st token_profile a))))%nat.
Proof.
  unfold process_token.
  destruct token_profile as [| | | | | |tp]; try reflexivity.
  destruct (negb (truthy (dict_get tp "tokenAddress" JNull))
            || py_in (dict_get tp "tokenAddress" JNull) (known_tokens st)
            || is_pump_token (dict_get tp "tokenAddress" JNull))%bool;
    [reflexivity|].
  destruct (fetch_token_details (details a)) as [token_data|];
    [|reflexivity].
  destruct (negb (truthy token_data)); [reflexivity|].
  destruct (get_main_pair token_data) as [p|]; [|reflexivity].
  destruct (negb (truthy p)); [reflexivity|].
  destruct (threshold_liquidity p) as [liq|e]; [|reflexivity].
  destruct (liq <? F64.of_Z LIQUIDITY_THRESHOLD)%f64; [reflexivity|].
  destruct (generate_token_info (JDict tp) token_data) as [message p'].
  destruct (send_to_telegram c message _ (telegram a))
    as [requests [[|]|e]]; cbn; rewrite ?length_app; cbn; lia.
Qed.

Lemma process_tokens_counter (c : credentials) (env : nat -> answers)
  (token_profiles : list value) (i : nat) (st : loop_state) :
  (tokens_sent (fst (process_tokens c env i token_profiles st))
   + List.length (known_tokens st)
   = tokens_sent st
     + List.length
         (known_tokens (fst (process_tokens c env i token_profiles st))))%nat.
Proof.
  revert i st. induction token_profiles as [|tp rest IH]; intros i st.
  - reflexivity.
  - cbn [process_tokens].
    pose proof (process_token_counter c st tp (env i)) as Hstep.
    destruct (process_token c st tp (env i)) as [st' [u|e]]; cbn [fst] in *.
    + specialize (IH (S i) st'). lia.
    + exact Hstep.
Qed.

(** X6.  At the end of a pass, whether it ended normally or in an
    exception, the counter of sent tokens is the number of posts of the
    pass that succeeded and the known tokens are the earlier ones followed
    by the addresses of those posts.  A pass that ends normally returns
    true when at least one post succeeded and false when none did. *)
Theorem pass_counts_successful_posts (c : credentials) (known : list value)
  (tr : list event) (inp : pass_input) :
  exists evs,
    trace (fst (process_new_tokens c known tr inp)) = (tr ++ evs)%list
    /\ known_tokens (fst (process_new_tokens c known tr inp))
       = (known ++ alerted evs)%list
    /\ tokens_sent (fst (process_new_tokens c known tr inp))
       = List.length (alerted evs)
    /\ (forall b : bool,
          snd (process_new_tokens c known tr inp) = Ok b ->
          (b = true <-> alerted evs <> [])).
Proof.
  destruct (process_new_tokens_extends c known tr inp)
    as (evs & Ht & Hk & _). unfold view in *. cbn [fst snd] in Ht, Hk.
  exists evs. split; [exact Ht|split; [exact Hk|]].
  assert (Hcount : tokens_sent (fst (process_new_tokens c known tr inp))
                   = List.length (alerted evs)).
  { revert Hk. unfold process_new_tokens.
    destruct (fetch_token_profiles (profiles inp)) as [|tp rest].
    - cbn. intros Hk. destruct (alerted evs); [reflexivity|].
      apply (f_equal (@List.length value)) in Hk.
      rewrite length_app in Hk. cbn in Hk. lia.
    - pose proof (process_tokens_counter c (env inp) (tp :: rest) 0
                    (mk_state known 0 tr)) as Hc.
      destruct (process_tokens c (env inp) 0 (tp :: rest)
                  (mk_state known 0 tr)) as [st [u|e]];
        cbn [fst known_tokens tokens_sent] in *; intros Hk;
        rewrite Hk, length_app in Hc; lia. }
  split; [exact Hcount|].
  intros b. revert Hcount. unfold process_new_tokens.
  destruct (fetch_token_profiles (profiles inp)) as [|tp rest].
  - cbn. intros Hc Hb. injection Hb as <-. split; [discriminate|].
    intros Hne. destruct (alerted evs); [contradiction|discriminate Hc].
  - destruct (process_tokens c (env inp) 0 (tp :: rest) (mk_state known 0 tr))
      as [st [u|e]]; cbn [fst snd]; intros Hc Hb; [|discriminate Hb].
    injection Hb as <-. split.
    + intros H. apply Nat.ltb_lt in H.
      destruct (alerted evs); [cbn in Hc; lia|discriminate].
    + intros Hne. apply Nat.ltb_lt.
      destruct (alerted evs); [contradiction|cbn in Hc; lia].
Qed.

(** ** Where the calls of a run come from *)

Lemma from_profiles_weaken (l l' known known' : list value) (ev : event) :
  incl l l' ->
  from_profiles l (known ++ known') ev -> from_profiles l' known ev.
Proof.
  intros Hincl (Hin & Ht & tp & Htp & Ha).
  rewrite py_in_app in Hin. apply orb_false_iff in Hin as (Hin & _).
  split; [exact Hin|split; [exact Ht|]]. exists tp. auto.
Qed.

Lemma process_token_sources (c : credentials) (st : loop_state)
  (token_profile : value) (a : answers) :
  exists evs,
    trace (fst (process_token c st token_profile a)) = (trace st ++ evs)%list
    /\ known_tokens (fst (process_token c st token_profile a))
       = (known_tokens st ++ alerted evs)%list
    /\ Forall (from_profiles [token_profile] (known_tokens st)) evs.
Proof.
  destruct (process_token_events c st token_profile a)
    as (evs & Ht & Hk & Hcases).
  exists evs. split; [exact Ht|split; [exact Hk|]].
  destruct Hcases as [->|(tp & a0 & -> & Ha0 & Htr & Hin & _ & Hevs)];
    [constructor|].
  assert (Hev : forall ev, event_address ev = a0 ->
                  from_profiles [JDict tp] (known_tokens st) ev).
  { intros ev Hev. rewrite <- Hev in Hin, Htr.
    split; [exact Hin|split; [exact Htr|]].
    exists tp. split; [now left|congruence]. }
  destruct Hevs as [->|(req & ok & -> & _)]; repeat constructor;
    apply Hev; reflexivity.
Qed.

Lemma process_tokens_sources (c : credentials) (env : nat -> answers)
  (token_profiles : list value) (i : nat) (st : loop_state) :
  exists evs,
    trace (fst (process_tokens c env i token_profiles st))
    = (trace st ++ evs)%list
    /\ known_tokens (fst (process_tokens c env i token_profiles st))
       = (known_tokens st ++ alerted evs)%list
    /\ Forall (from_profiles token_profiles (known_tokens st)) evs.
Proof.
  revert i st. induction token_profiles as [|tp rest IH]; intros i st.
  - exists []. cbn. rewrite !app_nil_r. auto.
  - cbn [process_tokens].
    destruct (process_token_sources c st tp (env i)) as (e1 & Ht1 & Hk1 & Hf1).
    assert (Hf1' : Forall (from_profiles (tp :: rest) (known_tokens st)) e1).
    { eapply Forall_impl; [|exact Hf1]. intros ev Hev.
      apply (from_profiles_weaken [tp] _ _ []);
        [intros x [<-|[]]; now left|now rewrite app_nil_r]. }
    destruct (process_token c st tp (env i)) as [st' [u|e]]; cbn [fst] in *.
    + destruct (IH (S i) st') as (e2 & Ht2 & Hk2 & Hf2).
      exists (e1 ++ e2)%list. rewrite alerted_app.
      split; [rewrite Ht2, Ht1, app_assoc; reflexivity|].
      split; [rewrite Hk2, Hk1, app_assoc; reflexivity|].
      apply Forall_app. split; [exact Hf1'|].
      eapply Forall_impl; [|exact Hf2]. intros ev Hev. rewrite Hk1 in Hev.
      eapply from_profiles_weaken; [|exact Hev].
      intros x Hx. now right.
    + exists e1. auto.
Qed.

Lemma process_new_tokens_sources (c : credentials) (known : list value)
  (tr : list event) (inp : pass_input) :
  exists evs,
    trace (fst (process_new_tokens c known tr inp)) = (tr ++ evs)%list
    /\ known_tokens (fst (process_new_tokens c known tr inp))
       = (known ++ alerted evs)%list
    /\ Forall (from_profiles (fetch_token_profiles (profiles inp)) known) evs.
Proof.
  unfold process_new_tokens.
  destruct (fetch_token_profiles (profiles inp)) as [|tp rest] eqn:Hp.
  - exists []. cbn. rewrite !app_nil_r. auto.
  - destruct (process_tokens_sources c (env inp) (tp :: rest) 0
                (mk_state known 0 tr)) as (evs & Ht & Hk & Hf).
    exists evs.
    destruct (process_tokens c (env inp) 0 (tp :: rest) (mk_state known 0 tr))
      as [st [u|e]]; auto.
Qed.

Lemma main_sources (c : credentials) (passes : list pass_input)
  (known : list value) (tr : list event) :
  exists evs,
    snd (main c passes known tr) = (tr ++ evs)%list
    /\ Forall (from_passes passes known) evs.
Proof.
  revert known tr. induction passes as [|inp rest IH]; intros known tr.
  - exists []. cbn. rewrite app_nil_r. auto.
  - cbn [main].
    destruct (process_new_tokens_sources c known tr inp)
      as (e1 & Ht1 & Hk1 & Hf1).
    destruct (process_new_tokens c known tr inp) as [st r]. cbn [fst] in *.
    destruct (IH (known_tokens st) (trace st)) as (e2 & Ht2 & Hf2).
    exists (e1 ++ e2)%list.
    split; [rewrite Ht2, Ht1, app_assoc; reflexivity|].
    apply Forall_app. split.
    + eapply Forall_impl; [|exact Hf1]. intros ev Hev.
      exists inp. split; [now left|exact Hev].
    + eapply Forall_impl; [|exact Hf2].
      intros ev (inp' & Hin' & Hev). exists inp'. split; [now right|].
      rewrite Hk1 in Hev. eapply from_profiles_weaken; [|exact Hev].
      intros x Hx. exact Hx.
Qed.

Lemma fetch_token_profiles_in (r : response) (p : value) :
  In p (fetch_token_profiles r) ->
  exists data tp,
    r = Response true (Json (JList data))
    /\ p = JDict tp
    /\ In p data
    /\ dict_get tp "chainId" JNull = JStr "solana".
Proof.
  unfold fetch_token_profiles.
  destruct r as [|[|] [| |[]]]; try contradiction.
  intros H. apply filter_In in H as (Hin & Hs).
  unfold is_solana in Hs. destruct p; try discriminate Hs.
  destruct (dict_get d "chainId" JNull) eqn:Hc; try discriminate Hs.
  apply String.eqb_eq in Hs. subst s.
  exists l, d. auto.
Qed.

(** X9.  Every call of a run is made for the [tokenAddress] of a profile
    that one of the passes received in a list answered with a success
    status, that is a mapping and has the chain identifier "solana"; the
    address is never missing or empty. *)
Theorem calls_come_from_solana_profiles (c : credentials)
  (passes : list pass_input) (known : list value) (tr evs : list event)
  (ev : event) :
  snd (main c passes known tr) = (tr ++ evs)%list ->
  In ev evs ->
  exists inp data tp,
    In inp passes
    /\ profiles inp = Response true (Json (JList data))
    /\ In (JDict tp) data
    /\ dict_get tp "chainId" JNull = JStr "solana"
    /\ event_address ev = dict_get tp "tokenAddress" JNull
    /\ truthy (event_address ev) = true.
Proof.
  intros Ht Hin.
  destruct (main_sources c passes known tr) as (evs' & Ht' & Hf).
  rewrite Ht' in Ht. apply app_inv_head in Ht. subst evs'.
  rewrite Forall_forall in Hf.
  destruct (Hf ev Hin) as (inp & Hinp & _ & Htr & tp & Htp & Ha).
  apply fetch_token_profiles_in in Htp
    as (data & tp' & Hr & Heq & Hdata & Hchain).
  injection Heq as <-.
  exists inp, data, tp. auto 10.
Qed.

(** ** Known tokens cause no traffic *)

Lemma untouched_app (e1 e2 : list event) (known : list value) :
  untouched known e1 -> untouched (known ++ alerted e1) e2 ->
  untouched known (e1 ++ e2).
Proof.
  revert known. induction e1 as [|ev e1 IH]; intros known H1 H2.
  - cbn in H2. rewrite app_nil_r in H2. exact H2.
  - destruct H1 as (Hev & H1). split; [exact Hev|].
    apply IH; [exact H1|].
    rewrite <- app_assoc, <- alerted_app. exact H2.
Qed.

Lemma untouched_split (e1 e2 : list event) (known : list value) :
  untouched known (e1 ++ e2) -> untouched (known ++ alerted e1) e2.
Proof.
  revert known. induction e1 as [|ev e1 IH]; intros known H.
  - cbn. rewrite app_nil_r. exact H.
  - destruct H as (_ & H). apply IH in H.
    rewrite <- app_assoc, <- alerted_app in H. exact H.
Qed.

Lemma untouched_in (evs : list event) (known : list value) (ev : event) :
  untouched known evs -> In ev evs -> py_in (event_address ev) known = false.
Proof.
  revert known. induction evs as [|ev0 evs IH]; intros known H Hin.
  - contradiction.
  - destruct H as (Hev0 & H). destruct Hin as [<-|Hin]; [exact Hev0|].
    specialize (IH _ H Hin). rewrite py_in_app in IH.
    apply orb_false_iff in IH as (IH & _). exact IH.
Qed.

Lemma process_token_untouched (c : credentials) (st : loop_state)
  (token_profile : value) (a : answers) :
  exists evs,
    trace (fst (process_token c st token_profile a)) = (trace st ++ evs)%list
    /\ known_tokens (fst (process_token c st token_profile a))
       = (known_tokens st ++ alerted evs)%list
    /\ untouched (known_tokens st) evs.
Proof.
  destruct (process_token_events c st token_profile a)
    as (evs & Ht & Hk & Hcases).
  exists evs. split; [exact Ht|split; [exact Hk|]].
  destruct Hcases as [->|(tp & a0 & _ & _ & _ & Hin & _ & Hevs)];
    [exact I|].
  destruct Hevs as [->|(req & ok & -> & _)]; cbn;
    rewrite ?app_nil_r; auto.
Qed.

Lemma process_tokens_untouched (c : credentials) (env : nat -> answers)
  (token_profiles : list value) (i : nat) (st : loop_state) :
  exists evs,
    trace (fst (process_tokens c env i token_profiles st))
    = (trace st ++ evs)%list
    /\ known_tokens (fst (process_tokens c env i token_profiles st))
       = (known_tokens st ++ alerted evs)%list
    /\ untouched (known_tokens st) evs.
Proof.
  revert i st. induction token_profiles as [|tp rest IH]; intros i st.
  - exists []. cbn. rewrite !app_nil_r. auto.
  - cbn [process_tokens].
    destruct (process_token_untouched c st tp (env i))
      as (e1 & Ht1 & Hk1 & Hu1).
    destruct (process_token c st tp (env i)) as [st' [u|e]]; cbn [fst] in *.
    + destruct (IH (S i) st') as (e2 & Ht2 & Hk2 & Hu2).
      exists (e1 ++ e2)%list. rewrite alerted_app.
      split; [rewrite Ht2, Ht1, app_assoc; reflexivity|].
      split; [rewrite Hk2, Hk1, app_assoc; reflexivity|].
      apply untouched_app; [exact Hu1|]. rewrite <- Hk1. exact Hu2.
    + exists e1. auto.
Qed.

Lemma process_new_tokens_untouched (c : credentials) (known : list value)
  (tr : list event) (inp : pass_input) :
  exists evs,
    trace (fst (process_new_tokens c known tr inp)) = (tr ++ evs)%list
    /\ known_tokens (fst (process_new_tokens c known tr inp))
       = (known ++ alerted evs)%list
    /\ untouched known evs.
Proof.
  unfold process_new_tokens.
  destruct (fetch_token_profiles (profiles inp)) as [|tp rest].
  - exists []. cbn. rewrite !app_nil_r. auto.
  - destruct (process_tokens_untouched c (env inp) (tp :: rest) 0
                (mk_state known 0 tr)) as (evs & Ht & Hk & Hu).
    exists evs.
    destruct (process_tokens c (env inp) 0 (tp :: rest) (mk_state known 0 tr))
      as [st [u|e]]; auto.
Qed.

Lemma main_untouched (c : credentials) (passes : list pass_input)
  (known : list value) (tr : list event) :
  exists evs,
    snd (main c passes known tr) = (tr ++ evs)%list
    /\ untouched known evs.
Proof.
  revert known tr. induction passes as [|inp rest IH]; intros known tr.
  - exists []. cbn. rewrite app_nil_r. auto.
  - cbn [main].
    destruct (process_new_tokens_untouched c known tr inp)
      as (e1 & Ht1 & Hk1 & Hu1).
    destruct (process_new_tokens c known tr inp) as [st r]. cbn [fst] in *.
    destruct (IH (known_tokens st) (trace st)) as (e2 & Ht2 & Hu2).
    exists (e1 ++ e2)%list.
    split; [rewrite Ht2, Ht1, app_assoc; reflexivity|].
    apply untouched_app; [exact Hu1|]. rewrite <- Hk1. exact Hu2.
Qed.

(** X8.  Over any number of passes no call, fetch or post, is made for an
    address that is known: neither for one that was among the known tokens
    when the passes began, nor, after a post for an address has succeeded,
    for that address again.  A token that has been alerted on causes no
    further traffic. *)
Theorem known_tokens_cause_no_call (c : credentials)
  (passes : list pass_input) (known : list value) (tr : list event) :
  (forall (evs : list event) (ev : event),
      snd (main c passes known tr) = (tr ++ evs)%list ->
      In ev evs ->
      py_in (event_address ev) known = false)
  /\ (forall (before after : list event) (x : value) (req : request)
        (ev : event),
        snd (main c passes known tr)
        = (tr ++ before ++ Post x req true :: after)%list ->
        In ev after ->
        py_eq x (event_address ev) = false).
Proof.
  destruct (main_untouched c passes known tr) as (evs' & Ht' & Hu).
  split.
  - intros evs ev Ht Hin. rewrite Ht' in Ht. apply app_inv_head in Ht.
    subst evs'. exact (untouched_in _ _ _ Hu Hin).
  - intros before after x req ev Ht Hin. rewrite Ht' in Ht.
    apply app_inv_head in Ht. subst evs'.
    apply untouched_split in Hu. destruct Hu as (_ & Hu).
    pose proof (untouched_in _ _ _ Hu Hin) as Hev.
    rewrite !py_in_app in Hev.
    apply orb_false_iff in Hev as (_ & Hev). cbn in Hev.
    rewrite orb_false_r in Hev. exact Hev.
Qed.

(** ** The excluded ending, exactly *)

(** X10.  [is_pump_token] accepts exactly the strings whose last four
    characters are p, u, m, p, each in either case: a value that is not a
    string, or a string with any other ending, is never excluded by name. *)
Theorem pump_test_is_exact (token_address : value) :
  is_pump_token token_address = true
  <-> exists s, token_address = JStr s /\ ends_with_pump s.
Proof.
  split.
  - destruct token_address; try discriminate. intros H.
    exists s. split; [reflexivity|]. apply is_pump_token_ending_inv, H.
  - intros (s & -> & H). apply is_pump_token_ending, H.
Qed.

(** ** The two fetches *)

(** X11.  When the profiles feed gives anything but a list answered with a
    success status (no answer, an error status, an empty or undecodable
    body, a document that is not a list), the pass makes no call, leaves
    the known tokens as they are and returns false, and the run goes on as
    if the pass had not taken place. *)
Theorem failed_feed_is_an_empty_pass (c : credentials) (known : list value)
  (tr : list event) (inp : pass_input) :
  (forall data, profiles inp <> Response true (Json (JList data))) ->
  fetch_token_profiles (profiles inp) = []
  /\ process_new_tokens c known tr inp = (mk_state known 0 tr, Ok false)
  /\ forall rest, main c (inp :: rest) known tr = main c rest known tr.
Proof.
  intros H.
  assert (Hempty : fetch_token_profiles (profiles inp) = []).
  { unfold fetch_token_profiles.
    destruct (profiles inp) as [|[|] [| |[]]]; try reflexivity.
    destruct (H l eq_refl). }
  assert (Hpass : process_new_tokens c known tr inp
                  = (mk_state known 0 tr, Ok false)).
  { unfold process_new_tokens. rewrite Hempty. reflexivity. }
  split; [exact Hempty|split; [exact Hpass|]].
  intros rest. cbn [main]. rewrite Hpass. reflexivity.
Qed.

Lemma get_main_pair_single (td d : list (string * value)) :
  candidate_pairs td = [JDict d] ->
  d <> [] ->
  overflows (JDict d) = false ->
  get_main_pair (JDict td) = Some (JDict d).
Proof.
  intros Hc Hd Hov. unfold get_main_pair.
  change (match dict_get td "pairs" (JList []) with
          | JList l => l
          | _ => [JDict td]
          end) with (candidate_pairs td).
  rewrite Hc. cbn [scan_pairs].
  rewrite scan_pair_step by (exact Hov || reflexivity). cbn [bind snd].
  destruct d as [|kv d]; [contradiction|].
  destruct (F64.zero <? parsed_liquidity (JDict (kv :: d)))%f64; reflexivity.
Qed.

(** X12.  The details fetch does not look at the status of the response,
    and whatever document it returns is a mapping with a [pairs] key (so
    it is never empty): a list becomes the value of [pairs], a mapping
    that has the key is returned as it is. *)
Theorem fetched_details_have_pairs :
  (forall (status : bool) (content : body),
      fetch_token_details (Response status content)
      = fetch_token_details (Response (negb status) content))
  /\ (forall (r : response) (v : value),
        fetch_token_details r = Some v ->
        truthy v = true
        /\ exists d x, v = JDict d /\ lookup "pairs" d = Some x)
  /\ (forall (status : bool) (data : list value),
        fetch_token_details (Response status (Json (JList data)))
        = Some (JDict [("pairs", JList data)]))
  /\ (forall (status : bool) (d : list (string * value)) (x : value),
        lookup "pairs" d = Some x ->
        fetch_token_details (Response status (Json (JDict d)))
        = Some (JDict d)).
Proof.
  split; [|split; [|split]].
  - intros [|] content; reflexivity.
  - intros r v H. unfold fetch_token_details in H.
    destruct r as [|status [| |[]]]; try discriminate H.
    + injection H as <-. split; [reflexivity|]. eexists _, _.
      split; reflexivity.
    + destruct (lookup "pairs" d) as [x|] eqn:Hp; injection H as <-.
      * split; [destruct d; [discriminate Hp|reflexivity]|]. eauto.
      * split; [reflexivity|]. eexists _, _. split; reflexivity.
  - reflexivity.
  - intros status d x H. cbn. rewrite H. reflexivity.
Qed.

(** X13.  A details response that is a single pair object (a mapping
    without a [pairs] key, with at least one key and no integer beyond the
    float range as its liquidity) is selected as its own main pair,
    whatever its liquidity. *)
Theorem bare_pair_is_its_own_main_pair (status : bool)
  (d : list (string * value)) :
  lookup "pairs" d = None ->
  d <> [] ->
  overflows (JDict d) = false ->
  exists token_data,
    fetch_token_details (Response status (Json (JDict d))) = Some token_data
    /\ get_main_pair token_data = Some (JDict d).
Proof.
  intros Hp Hd Hov. exists (JDict [("pairs", JList [JDict d])]).
  split; [cbn; rewrite Hp; reflexivity|].
  apply get_main_pair_single; [reflexivity|exact Hd|exact Hov].
Qed.

(** X14.  A document without a [pairs] key, or with an empty list under
    it, selects nothing, even when the document itself holds a liquidity.
    A document whose [pairs] is not a list is taken as the only record: it
    is selected itself, unless its own [liquidity.usd] is an integer beyond
    the float range, and then nothing is selected. *)
Theorem documents_without_a_pairs_list (td : list (string * value)) :
  (lookup "pairs" td = None -> get_main_pair (JDict td) = None)
  /\ (lookup "pairs" td = Some (JList []) -> get_main_pair (JDict td) = None)
  /\ (forall x,
        lookup "pairs" td = Some x ->
        (forall l, x <> JList l) ->
        get_main_pair (JDict td)
        = match liquidity_reading (JDict td) with
          | TooLarge => None
          | _ => Some (JDict td)
          end).
Proof.
  split; [|split].
  - intros H. unfold get_main_pair, dict_get. rewrite H. reflexivity.
  - intros H. unfold get_main_pair, dict_get. rewrite H. reflexivity.
  - intros x H Hx.
    assert (Hc : candidate_pairs td = [JDict td]).
    { unfold candidate_pairs, dict_get. rewrite H.
      destruct x; try reflexivity. destruct (Hx l eq_refl). }
    destruct (liquidity_reading_parsed (JDict td)) as (_ & Hread).
    transitivity (if overflows (JDict td) then None else Some (JDict td)).
    2:{ destruct (overflows (JDict td)).
        - rewrite (proj1 Hread eq_refl). reflexivity.
        - destruct (liquidity_reading (JDict td)); try reflexivity.
          discriminate (proj2 Hread eq_refl). }
    destruct (overflows (JDict td)) eqn:Hov.
    + unfold get_main_pair.
      change (match dict_get td "pairs" (JList []) with
              | JList l => l
              | _ => [JDict td]
              end) with (candidate_pairs td).
      rewrite Hc.
      destruct (scan_pairs (None, F64.zero) [JDict td]) as [st|e] eqn:Hs;
        [|reflexivity].
      rewrite (scan_pairs_no_overflow _ _ _ Hs (JDict td) (or_introl eq_refl))
        in Hov.
      discriminate Hov.
    + apply get_main_pair_single; [exact Hc| |exact Hov].
      destruct td; [discriminate H|discriminate].
Qed.

(** ** The links section of the message *)

Lemma string_app_nil_r (s : string) : s ++ "" = s.
Proof.
  induction s as [|ch s IH]; cbn; [reflexivity|now rewrite IH].
Qed.

Lemma string_app_assoc (s t u : string) : (s ++ t) ++ u = s ++ t ++ u.
Proof.
  induction s as [|ch s IH]; cbn; [reflexivity|now rewrite IH].
Qed.

Lemma concat_empty_cons (x : string) (xs : list string) :
  String.concat "" (x :: xs) = x ++ String.concat "" xs.
Proof.
  destruct xs; cbn; [now rewrite string_app_nil_r|reflexivity].
Qed.

Lemma concat_empty_app (xs ys : list string) :
  String.concat "" (xs ++ ys)
  = String.concat "" xs ++ String.concat "" ys.
Proof.
  induction xs as [|x xs IH].
  - reflexivity.
  - cbn [app]. rewrite !concat_empty_cons, IH, string_app_assoc.
    reflexivity.
Qed.

Lemma endswith_append (s t suffix : string) :
  endswith t suffix = true -> endswith (s ++ t) suffix = true.
Proof.
  intros H. induction s as [|ch s IH]; cbn [append]; [exact H|].
  cbn [endswith]. rewrite IH. apply orb_true_r.
Qed.

Lemma format_link_ending (link : value) :
  format_link link = "" \/ endswith (format_link link) " | " = true.
Proof.
  unfold format_link. destruct link; auto.
  destruct (eq_str (dict_get d "type" JNull) "twitter");
    [right; apply endswith_append, endswith_append; reflexivity|].
  destruct (eq_str (dict_get d "type" JNull) "telegram");
    [right; apply endswith_append, endswith_append; reflexivity|].
  destruct (truthy (dict_get d "url" JNull));
    [right; apply endswith_append, endswith_append; reflexivity|].
  now left.
Qed.

(** X15.  The links section is built entry by entry: the section of two
    lists put together is the two sections put together; entries that are
    not mappings add nothing; a [links] value that is not a list, like an
    empty list, gives the empty section; and a section that is not empty
    ends with the separator " | ". *)
Theorem links_section_is_built_by_entry :
  (forall l1 l2 : list value,
      format_links (JList (l1 ++ l2))
      = format_links (JList l1) ++ format_links (JList l2))
  /\ (forall l : list value,
        format_links (JList (filter is_dict l)) = format_links (JList l))
  /\ (forall links : value,
        (forall l, links <> JList l) -> format_links links = "")
  /\ format_links (JList []) = ""
  /\ (forall links : value,
        format_links links = ""
        \/ endswith (format_links links) " | " = true).
Proof.
  split; [|split; [|split; [|split]]].
  - intros l1 l2. cbn [format_links]. rewrite map_app.
    apply concat_empty_app.
  - intros l. cbn [format_links].
    induction l as [|x l IH]; [reflexivity|].
    cbn [filter map]. destruct (is_dict x) eqn:Hx.
    + cbn [map]. rewrite !concat_empty_cons, IH. reflexivity.
    + rewrite concat_empty_cons, IH. destruct x; try reflexivity.
      discriminate Hx.
  - intros links H. destruct links; try reflexivity.
    destruct (H l eq_refl).
  - reflexivity.
  - intros links. destruct links; auto. cbn [format_links].
    induction l as [|x l IH]; [now left|].
    cbn [map]. rewrite concat_empty_cons.
    destruct IH as [IH|IH].
    + rewrite IH, string_app_nil_r. apply format_link_ending.
    + right. apply endswith_append, IH.
Qed.

(** ** The formatter where the loop calls it *)

Lemma threshold_is_liquidity_field (d : list (string * value)) :
  threshold_liquidity (JDict d) = field_float d "liquidity" "usd".
Proof. reflexivity. Qed.

(** X16.  Where the loop calls it, after a main pair was selected and its
    liquidity converted, the formatter cannot answer with the invalid-data
    or the no-pair message: it returns the alert text together with that
    very pair when both [volume.h24] and [priceChange.h24] convert, and the
    risk error message with a null pair when one of them does not. *)
Theorem formatter_after_threshold (tp : list (string * value))
  (token_data p : value) (liq : spec_float) :
  get_main_pair token_data = Some p ->
  threshold_liquidity p = Ok liq ->
  exists d,
    p = JDict d
    /\ ((exists v pc,
           field_float d "volume" "h24" = Ok v
           /\ field_float d "priceChange" "h24" = Ok pc
           /\ generate_token_info (JDict tp) token_data
              = (format_message tp
                   (mk_risk liq v pc (risk_formula liq v pc)
                      (min_100 (max_0 (risk_formula liq v pc
                                       * F64.of_Z 10)%f64))),
                 Some p))
        \/ ((exists e,
               field_float d "volume" "h24" = Raise e
               \/ field_float d "priceChange" "h24" = Raise e)
            /\ generate_token_info (JDict tp) token_data
               = (MSG_RISK_ERROR, None))).
Proof.
  intros Hgm Hth.
  destruct token_data as [| | | | | |td]; try discriminate Hgm.
  destruct (get_main_pair_candidates _ _ Hgm) as (_ & _ & Hcases).
  assert (Hd : is_dict p = true /\ truthy p = true).
  { destruct Hcases as [Hpos|(Hd & Ht & _)]; [|auto].
    apply positive_is_dict, Hpos. }
  destruct Hd as (Hd & Ht). destruct p as [| | | | | |d]; try discriminate Hd.
  exists d. split; [reflexivity|].
  rewrite threshold_is_liquidity_field in Hth.
  unfold generate_token_info. rewrite Hgm, Ht. cbn [negb].
  unfold calculate_investment_risk, risk_body. rewrite Hth. cbn [bind].
  destruct (field_float d "volume" "h24") as [v|e] eqn:Hv; cbn [bind].
  - destruct (field_float d "priceChange" "h24") as [pc|e] eqn:Hpc;
      cbn [bind].
    + left. exists v, pc. auto.
    + right. split; [eauto|reflexivity].
  - right. split; [eauto|reflexivity].
Qed.

(** ** The chart's colours and texts *)

(** X17.  In a chart that is returned, each of the four bars is green
    when its value is at least 0 (so a window drawn as 0 for a missing
    field is green) and red otherwise; the bar texts and the line texts
    have four entries each, and the title names the token. *)
Theorem chart_bars_are_coloured_by_sign (pair token_name : value)
  (image_ok : bool) (fig : figure) :
  generate_plotly_graph pair token_name image_ok = Some fig ->
  List.length (bar_colors fig) = 4%nat
  /\ List.length (bar_text fig) = 4%nat
  /\ List.length (line_text fig) = 4%nat
  /\ title fig = "Performance: " ++ py_str token_name
  /\ forall (i : nat) (v : spec_float),
       nth_error (bar_y fig) i = Some v ->
       nth_error (bar_colors fig) i
       = Some (if (F64.zero <=? v)%f64 then "#4CAF50" else "#F44336").
Proof.
  intros H. unfold generate_plotly_graph in H.
  destruct pair; try discriminate H.
  destruct (chart_series d ([], []) time_frames) as [[pcs vols]|e] eqn:Hs;
    [|discriminate H].
  destruct image_ok; [|discriminate H]. injection H as <-.
  apply chart_series_lengths in Hs as (H1 & H2). cbn in H1, H2.
  cbn [bar_colors bar_text line_text title bar_y build_figure].
  rewrite !length_map. repeat split; auto.
  intros i v Hv. rewrite nth_error_map, Hv. reflexivity.
Qed.

(** ** The risk figures at the edges *)

Lemma risk_formula_sign (l v p : spec_float) :
  risk_formula l v (SFopp p) = risk_formula l v p.
Proof.
  unfold risk_formula, F64.abs. destruct p; reflexivity.
Qed.

(** X18.  The risk figures depend on the price change through its
    magnitude only: two pair records that read the same liquidity and
    volume and opposite price changes get the same score and the same
    percentage. *)
Theorem risk_ignores_direction_of_price_change
  (d d' : list (string * value)) (l v p : spec_float) :
  field_float d "liquidity" "usd" = Ok l ->
  field_float d "volume" "h24" = Ok v ->
  field_float d "priceChange" "h24" = Ok p ->
  field_float d' "liquidity" "usd" = Ok l ->
  field_float d' "volume" "h24" = Ok v ->
  field_float d' "priceChange" "h24" = Ok (SFopp p) ->
  exists r r',
    calculate_investment_risk (JDict d) = Some r
    /\ calculate_investment_risk (JDict d') = Some r'
    /\ risk_score r' = risk_score r
    /\ risk_percentage r' = risk_percentage r.
Proof.
  intros Hl Hv Hp Hl' Hv' Hp'.
  unfold calculate_investment_risk, risk_body.
  rewrite Hl, Hv, Hp, Hl', Hv', Hp'. cbn [bind].
  eexists _, _. split; [reflexivity|split; [reflexivity|]].
  cbn [risk_score risk_percentage]. rewrite risk_formula_sign. auto.
Qed.

(** X19.  The percentage of a risk assessment is never NaN: when the score
    is NaN (an infinite liquidity against an infinite volume, or a NaN
    field) the percentage is 0. *)
Theorem risk_percentage_is_a_number (pair : value) (r : risk_data) :
  calculate_investment_risk pair = Some r ->
  is_nan (risk_percentage r) = false
  /\ (is_nan (risk_score r) = true -> risk_percentage r = F64.zero).
Proof.
  intros H. destruct pair; try discriminate H. cbn in H.
  destruct (risk_body d) as [r'|e] eqn:Hb; [|discriminate H].
  injection H as <-.
  apply risk_body_inv in Hb as (l & v & p & _ & _ & _ & ->).
  cbn [risk_score risk_percentage]. split.
  - unfold min_100, max_0.
    destruct (F64.zero <? risk_formula l v p * F64.of_Z 10)%f64 eqn:Hpos;
      [|reflexivity].
    destruct (risk_formula l v p * F64.of_Z 10 <? F64.of_Z 100)%f64;
      [|reflexivity].
    destruct (risk_formula l v p * F64.of_Z 10)%f64; try reflexivity.
    discriminate Hpos.
  - intros Hn. destruct (risk_formula l v p); try discriminate Hn.
    reflexivity.
Qed.

(** ** A candidate that passes every test *)

Lemma fetch_token_details_truthy (r : response) (v : value) :
  fetch_token_details r = Some v -> truthy v = true.
Proof.
  unfold fetch_token_details.
  destruct r as [|status [| |[]]]; try discriminate.
  - intros H. injection H as <-. reflexivity.
  - destruct (lookup "pairs" d) as [x|] eqn:Hp; intros H; injection H as <-.
    + destruct d; [discriminate Hp|reflexivity].
    + reflexivity.
Qed.

Lemma get_main_pair_truthy (token_data p : value) :
  get_main_pair token_data = Some p -> truthy p = true.
Proof.
  intros H. destruct token_data; try discriminate H.
  destruct (get_main_pair_candidates _ _ H) as (_ & _ & [Hpos|(_ & Ht & _)]);
    [apply positive_is_dict, Hpos|exact Ht].
Qed.

Lemma generate_token_info_not_empty (token_profile token_data : value) :
  fst (generate_token_info token_profile token_data) <> "".
Proof.
  unfold generate_token_info.
  destruct token_profile; try discriminate.
  destruct token_data; try discriminate.
  destruct (get_main_pair (JDict d0)) as [p|]; [|discriminate].
  destruct (truthy p); [|discriminate]. cbn [negb].
  destruct (calculate_investment_risk p) as [r|]; [|discriminate].
  apply format_message_not_empty.
Qed.

(** X20.  A candidate with a usable address that is neither known nor
    excluded by name, whose details have a main pair with a liquidity that
    is not below 5000, is posted exactly once in its iteration (both
    credentials being set): the iteration fetches, posts and ends normally,
    and the address joins the known tokens, and the counter goes up,
    exactly when the endpoint answered with a success status. *)
Theorem candidate_above_threshold_is_posted (c : credentials)
  (st : loop_state) (tp : list (string * value)) (a : answers)
  (token_data p : value) (liq : spec_float) :
  truthy (dict_get tp "tokenAddress" JNull) = true ->
  py_in (dict_get tp "tokenAddress" JNull) (known_tokens st) = false ->
  is_pump_token (dict_get tp "tokenAddress" JNull) = false ->
  fetch_token_details (details a) = Some token_data ->
  get_main_pair token_data = Some p ->
  threshold_liquidity p = Ok liq ->
  (liq <? F64.of_Z 5000)%f64 = false ->
  TELEGRAM_BOT_TOKEN c <> "" ->
  TELEGRAM_CHAT_ID c <> "" ->
  exists req,
    snd (process_token c st (JDict tp) a) = Ok tt
    /\ trace (fst (process_token c st (JDict tp) a))
       = (trace st
          ++ [FetchDetails (dict_get tp "tokenAddress" JNull);
              Post (dict_get tp "tokenAddress" JNull) req
                match telegram a with Answer true => true | _ => false end])%list
    /\ known_tokens (fst (process_token c st (JDict tp) a))
       = match telegram a with
         | Answer true =>
             (known_tokens st ++ [dict_get tp "tokenAddress" JNull])%list
         | _ => known_tokens st
         end
    /\ tokens_sent (fst (process_token c st (JDict tp) a))
       = match telegram a with
         | Answer true => S (tokens_sent st)
         | _ => tokens_sent st
         end.
Proof.
  intros Htr Hin Hpump Hfd Hgm Hth Hliq Htok Hchat.
  unfold process_token. rewrite Htr, Hin, Hpump. cbn [negb orb].
  rewrite Hfd, (fetch_token_details_truthy _ _ Hfd). cbn [negb].
  rewrite Hgm, (get_main_pair_truthy _ _ Hgm). cbn [negb].
  rewrite Hth. unfold LIQUIDITY_THRESHOLD. rewrite Hliq.
  pose proof (generate_token_info_not_empty (JDict tp) token_data) as Hne.
  destruct (generate_token_info (JDict tp) token_data) as [message p'].
  cbn [fst] in Hne.
  destruct (send_attempt c message
              (generate_plotly_graph (or_null p')
                 (dict_get tp "tokenAddress" JNull) (image_ok a))
              (telegram a) Hne Htok Hchat) as (req & Hsend & _).
  rewrite Hsend. exists req.
  destruct (telegram a) as [|[|]|]; cbn; rewrite <- app_assoc; auto.
Qed.

(** ** Entries that are not mappings *)

Lemma scan_pairs_filter (pairs : list value)
  (st : option value * spec_float) :
  scan_pairs st (filter is_dict pairs) = scan_pairs st pairs.
Proof.
  revert st. induction pairs as [|p pairs IH]; intros st; [reflexivity|].
  cbn [filter scan_pairs]. destruct (is_dict p) eqn:Hp.
  - cbn [scan_pairs]. destruct (scan_pair st p) as [st'|e]; cbn [bind];
      [apply IH|reflexivity].
  - destruct p; try discriminate Hp; cbn [scan_pair bind]; apply IH.
Qed.

(** X21.  When some record of the collection has a positive liquidity,
    the entries that are not mappings have no influence on the selection:
    the selector returns for the collection what it returns for the
    collection without them. *)
Theorem selection_ignores_entries_that_are_no_mappings
  (td td' : list (string * value)) (pairs : list value) :
  lookup "pairs" td = Some (JList pairs) ->
  lookup "pairs" td' = Some (JList (filter is_dict pairs)) ->
  existsb positive_liquidity pairs = true ->
  get_main_pair (JDict td') = get_main_pair (JDict td).
Proof.
  intros Hp Hp' Hex.
  apply existsb_exists in Hex as (q & Hq & Hpos).
  destruct (positive_is_dict _ Hpos) as (Hqd & _).
  assert (Hq' : In q (filter is_dict pairs)) by (apply filter_In; auto).
  unfold get_main_pair, dict_get. rewrite Hp, Hp'.
  destruct pairs as [|first rest]; [contradiction|].
  destruct (filter is_dict (first :: rest)) as [|first' rest'] eqn:Hf;
    [contradiction|].
  rewrite <- Hf, scan_pairs_filter.
  destruct (scan_pairs (None, F64.zero) (first :: rest))
    as [[mp mx]|e] eqn:Hs; [|reflexivity].
  apply scan_pairs_result in Hs. destruct Hs as (_ & Hmax & Hsel).
  cbn [fst snd] in *. destruct mp as [p0|].
  - destruct Hsel as (i & _ & Hpl & Hp0 & _).
    assert (Ht : truthy p0 = true).
    { apply positive_is_dict. unfold positive_liquidity. now rewrite Hpl. }
    cbn [selected]. rewrite Ht. reflexivity.
  - specialize (Hmax q Hq). rewrite Hsel in Hmax.
    unfold positive_liquidity in Hpos. congruence.
Qed.

End Bot.

(** * The properties on concrete inputs *)

Lemma pair_selector_choice_witness :
  exists i p,
    get_main_pair demo_str_to_float (JDict [("pairs", JList three_pairs)])
    = Some p
    /\ nth_error three_pairs i = Some p
    /\ is_dict p = true
    /\ (forall q, In q three_pairs ->
         (parsed_liquidity demo_str_to_float p
          <? parsed_liquidity demo_str_to_float q)%f64 = false)
    /\ (forall j q, (j < i)%nat -> nth_error three_pairs j = Some q ->
         F64.eqb (parsed_liquidity demo_str_to_float q)
           (parsed_liquidity demo_str_to_float p) = false).
Proof.
  apply (proj1 (pair_selector_choice demo_str_to_float
                  [("pairs", JList three_pairs)] three_pairs eq_refl)).
  - intros q [<-|[<-|[<-|[]]]]; reflexivity.
  - reflexivity.
Defined.

(** C2 as stated fails: the collection holds a mapping, the second record,
    which is the first structurally valid one, and the selector returns no
    selection. *)
Lemma pair_selector_fallback_counterexample :
  first_valid_record pairs_with_leading_junk = Some zero_liquidity_pair
  /\ get_main_pair demo_str_to_float
       (JDict [("pairs", JList pairs_with_leading_junk)]) = None.
Proof.
  split; reflexivity.
Qed.


Lemma chart_has_four_windows_witness :
  exists fig,
    generate_plotly_graph demo_str_to_float demo_format_fixed demo_str_of_other
      (JDict chart_pair) (JStr "abc") true = Some fig
    /\ bar_x fig = ["5 min"; "1 hora"; "6 horas"; "24 horas"]
    /\ line_x fig = ["5 min"; "1 hora"; "6 horas"; "24 horas"]
    /\ bar_y fig = [F64.of_Z 1; F64.zero; F64.zero; F64.zero]
    /\ line_y fig = [F64.zero; F64.zero; F64.zero; F64.of_Z 50000].
Proof.
  apply (proj1 (chart_has_four_windows demo_str_to_float demo_format_fixed
                  demo_str_of_other)
           chart_pair (JStr "abc")
           (F64.of_Z 1, F64.zero) (F64.zero, F64.zero)
           (F64.zero, F64.zero) (F64.zero, F64.of_Z 50000));
    vm_compute; reflexivity.
Defined.

(** C9 as stated fails.  In the window h1 of [chart_pair] the volume is
    present and is the number 7, and the price change is a string that is
    no number: substituting 0 field by field gives the line points 0, 7, 0,
    50000, and the chart has 0 for the window.  A record with an integer
    beyond the float range in a window field has no chart at all. *)
Lemma chart_window_zeroed_counterexample :
  map (substituted demo_str_to_float chart_pair "volume") time_frames
  = [F64.zero; F64.of_Z 7; F64.zero; F64.of_Z 50000]
  /\ (exists fig,
        generate_plotly_graph demo_str_to_float demo_format_fixed
          demo_str_of_other (JDict chart_pair) (JStr "abc") true = Some fig
        /\ line_y fig = [F64.zero; F64.zero; F64.zero; F64.of_Z 50000])
  /\ generate_plotly_graph demo_str_to_float demo_format_fixed
       demo_str_of_other
       (JDict [("volume", JDict [("m5", JInt (10 ^ 400))])]) (JStr "abc") true
     = None.
Proof.
  split; [vm_compute; reflexivity|split].
  - eexists. split; vm_compute; reflexivity.
  - vm_compute. reflexivity.
Qed.

Lemma notifier_returns_boolean_witness :
  send_to_telegram (mk_credentials "" "chat-id") "text" None (Answer true)
  = ([], Ok false).
Proof.
  apply (notifier_returns_boolean (mk_credentials "" "chat-id") "text" None
           (Answer true)).
  right. left. reflexivity.
Defined.

Lemma formatter_message_not_empty_witness :
  exists req,
    fst (send_to_telegram demo_credentials
           (fst (generate_token_info demo_str_to_float demo_format_fixed
                   demo_str_of_other (JDict (profile_of "abc")) JNull))
           None NoAnswer) = [req].
Proof.
  apply (formatter_message_not_empty demo_str_to_float demo_format_fixed
           demo_str_of_other (JDict (profile_of "abc")) JNull);
    discriminate.
Defined.

Lemma pump_tokens_always_skipped_witness :
  ends_with_pump "9xQeWvpUmP"
  /\ process_token demo_str_to_float demo_format_fixed demo_str_of_other
       demo_credentials empty_state (JDict (profile_of "9xQeWvpUmP"))
       (answering details_good (Answer true))
     = (empty_state, Ok tt).
Proof.
  assert (H : ends_with_pump "9xQeWvpUmP").
  { exists "9xQeWv", "p"%char, "U"%char, "m"%char, "P"%char.
    repeat split; auto. }
  split; [exact H|].
  apply (pump_tokens_always_skipped demo_str_to_float demo_format_fixed
           demo_str_of_other "9xQeWvpUmP" H).
  reflexivity.
Defined.

Lemma below_threshold_not_sent_witness :
  let r :=
    process_token demo_str_to_float demo_format_fixed demo_str_of_other
      demo_credentials empty_state (JDict (profile_of "abc"))
      (answering details_low_liquidity (Answer true)) in
  LIQUIDITY_THRESHOLD = 5000
  /\ known_tokens (fst r) = known_tokens empty_state
  /\ tokens_sent (fst r) = tokens_sent empty_state
  /\ exists evs,
       trace (fst r) = (trace empty_state ++ evs)%list
       /\ Forall (fun ev => is_post ev = false) evs.
Proof.
  apply (below_threshold_not_sent demo_str_to_float demo_format_fixed
           demo_str_of_other demo_credentials empty_state (profile_of "abc")
           (answering details_low_liquidity (Answer true))
           details_low_liquidity
           (JDict [("liquidity", JDict [("usd", JInt 4999)])]));
    reflexivity.
Defined.

Lemma alerted_at_most_once_witness :
  let step :=
    process_token demo_str_to_float demo_format_fixed demo_str_of_other
      demo_credentials empty_state (JDict (profile_of "abc"))
      (answering details_good (Answer false)) in
  known_tokens (fst step) = known_tokens empty_state
  /\ forall a' : answers,
       exists evs',
         trace (fst (process_token demo_str_to_float demo_format_fixed
                       demo_str_of_other demo_credentials (fst step)
                       (JDict (profile_of "abc")) a'))
         = (trace (fst step) ++ FetchDetails (JStr "abc") :: evs')%list.
Proof.
  intros step.
  eapply (proj2 (proj2 (proj2
            (alerted_at_most_once demo_str_to_float demo_format_fixed
               demo_str_of_other demo_credentials)))
          empty_state (profile_of "abc")
          (answering details_good (Answer false))).
  - vm_compute. reflexivity.
  - right. left. reflexivity.
Defined.

(** C4 fails on the code.  The only pair of the details has a liquidity
    that does not convert; the selector falls back to it, the conversion
    before the threshold comparison raises [ValueError], and the exception
    leaves the pass: the second profile of the pass is never looked at. *)
Theorem threshold_comparison_raises :
  get_main_pair demo_str_to_float details_unparsable_liquidity
  = Some (JDict [("liquidity", JDict [("usd", JStr "abc")])])
  /\ threshold_liquidity demo_str_to_float
       (JDict [("liquidity", JDict [("usd", JStr "abc")])])
     = Raise ValueError
  /\ process_new_tokens demo_str_to_float demo_format_fixed demo_str_of_other
       demo_credentials [] []
       (pass_over_two details_unparsable_liquidity (Answer true))
     = (mk_state [] 0 [FetchDetails (JStr "abc")], Raise ValueError).
Proof.
  repeat split; vm_compute; reflexivity.
Qed.

(** C3 fails on the code.  The pair passes the threshold and its volume is
    null, so the formatter returns the risk error message with a null pair;
    the loop does not look at the null pair, posts the error message as a
    text alert and marks the address as known. *)
Theorem error_message_is_posted :
  generate_token_info demo_str_to_float demo_format_fixed demo_str_of_other
    (JDict (profile_of "abc")) details_null_volume
  = (MSG_RISK_ERROR, None)
  /\ process_token demo_str_to_float demo_format_fixed demo_str_of_other
       demo_credentials empty_state (JDict (profile_of "abc"))
       (answering details_null_volume (Answer true))
     = (mk_state [JStr "abc"] 1
          [FetchDetails (JStr "abc");
           Post (JStr "abc")
             (SendMessage "https://api.telegram.org/botbot-token/sendMessage"
                "chat-id" MSG_RISK_ERROR)
             true],
        Ok tt).
Proof.
  split; vm_compute; reflexivity.
Qed.

(** ** The code on further inputs *)

(** Of two records tied at the maximum, the earlier one is selected. *)
Example selector_takes_first_of_ties :
  get_main_pair demo_str_to_float (JDict [("pairs", JList three_pairs)])
  = Some (pair_of_liquidity "b" 20).
Proof. reflexivity. Qed.

(** A single record without any key is no selection. *)
Example selector_rejects_empty_record :
  get_main_pair demo_str_to_float (JDict [("pairs", JList [JDict []])]) = None.
Proof. reflexivity. Qed.

(** An integer beyond the float range ends the scan: the later record, with
    a positive liquidity, is not selected. *)
Example selector_stops_on_huge_integer :
  float_of_int (10 ^ 400) = Raise OverflowError
  /\ get_main_pair demo_str_to_float
       (JDict [("pairs",
                JList [pair_of_liquidity "a" (10 ^ 400);
                       pair_of_liquidity "b" 20])])
     = None.
Proof. split; vm_compute; reflexivity. Qed.

(** A liquidity in digits is converted; the selector and the threshold
    comparison agree on it. *)
Example selector_reads_digit_strings :
  parsed_liquidity demo_str_to_float
    (JDict [("liquidity", JDict [("usd", JStr "7000")])])
  = F64.of_Z 7000.
Proof. vm_compute. reflexivity. Qed.

(** A record whose [volume] is null has no risk assessment and no chart. *)
Example null_container_fails :
  calculate_investment_risk demo_str_to_float
    (JDict [("liquidity", JDict [("usd", JInt 6000)]); ("volume", JNull)])
  = None
  /\ generate_plotly_graph demo_str_to_float demo_format_fixed
       demo_str_of_other
       (JDict [("liquidity", JDict [("usd", JInt 6000)]); ("volume", JNull)])
       (JStr "abc") true
     = None.
Proof. split; reflexivity. Qed.

(** When one field of a window does not convert, both values of the window
    are drawn as zero. *)
Example window_zeroed_as_a_whole :
  window_or_zero demo_str_to_float chart_pair "h1" = (F64.zero, F64.zero)
  /\ field_float demo_str_to_float chart_pair "volume" "h1" = Ok (F64.of_Z 7).
Proof. split; vm_compute; reflexivity. Qed.

Example pump_endings :
  is_pump_token (JStr "9xQeWvPUMP") = true
  /\ is_pump_token (JStr "pumpkin") = false
  /\ is_pump_token (JInt 5) = false.
Proof. repeat split; reflexivity. Qed.

(** The same two profiles pass after pass: below the threshold they are
    fetched again on every pass and never alerted; above it, after a pass of
    failed posts they are fetched and posted again, and once alerted they
    are skipped (8 calls over the three passes). *)
Example passes_over_the_same_profiles :
  main demo_str_to_float demo_format_fixed demo_str_of_other demo_credentials
    [pass_over_two details_low_liquidity (Answer true);
     pass_over_two details_low_liquidity (Answer true)] [] []
  = ([], [FetchDetails (JStr "abc"); FetchDetails (JStr "def");
          FetchDetails (JStr "abc"); FetchDetails (JStr "def")])
  /\ alerted
       (snd (main demo_str_to_float demo_format_fixed demo_str_of_other
               demo_credentials
               [pass_over_two details_good (Answer false);
                pass_over_two details_good (Answer true);
                pass_over_two details_good (Answer true)] [] []))
     = [JStr "abc"; JStr "def"]
  /\ List.length
       (snd (main demo_str_to_float demo_format_fixed demo_str_of_other
               demo_credentials
               [pass_over_two details_good (Answer false);
                pass_over_two details_good (Answer true);
                pass_over_two details_good (Answer true)] [] []))
     = 8%nat.
Proof. repeat split; vm_compute; reflexivity. Qed.

(** * The further properties on concrete inputs *)

Lemma selected_pair_is_scanned_record_witness :
  is_dict (JDict chart_pair) = true
  /\ truthy (JDict chart_pair) = true
  /\ exists td, details_good = JDict td
       /\ In (JDict chart_pair) (candidate_pairs td).
Proof.
  apply (selected_pair_is_scanned_record demo_str_to_float details_good).
  reflexivity.
Defined.

Lemma threshold_conversion_of_selected_pair_witness :
  threshold_liquidity demo_str_to_float (JDict chart_pair)
  = Ok (parsed_liquidity demo_str_to_float (JDict chart_pair)).
Proof.
  apply (proj1 (threshold_conversion_of_selected_pair demo_str_to_float
                  details_good (JDict chart_pair) eq_refl)).
  reflexivity.
Defined.

Lemma post_only_above_threshold_witness :
  let step :=
    process_token demo_str_to_float demo_format_fixed demo_str_of_other
      demo_credentials empty_state (JDict (profile_of "abc"))
      (answering details_good (Answer true)) in
  let req :=
    match trace (fst step) with
    | [_; Post _ r _] => r
    | _ => SendMessage "" "" ""
    end in
  exists tp token_data p liq,
    JDict (profile_of "abc") = JDict tp
    /\ JStr "abc" = dict_get tp "tokenAddress" JNull
    /\ fetch_token_details (details (answering details_good (Answer true)))
       = Some token_data
    /\ get_main_pair demo_str_to_float token_data = Some p
    /\ threshold_liquidity demo_str_to_float p = Ok liq
    /\ (liq <? F64.of_Z 5000)%f64 = false.
Proof.
  intros step req.
  apply (post_only_above_threshold demo_str_to_float demo_format_fixed
           demo_str_of_other demo_credentials empty_state
           (JDict (profile_of "abc")) (answering details_good (Answer true))
           (trace (fst step)) (JStr "abc") req true).
  - reflexivity.
  - right. left. vm_compute. reflexivity.
Defined.

Lemma post_carries_formatter_message_witness :
  let step :=
    process_token demo_str_to_float demo_format_fixed demo_str_of_other
      demo_credentials empty_state (JDict (profile_of "abc"))
      (answering details_good NoAnswer) in
  let req :=
    match trace (fst step) with
    | [_; Post _ r _] => r
    | _ => SendMessage "" "" ""
    end in
  exists token_data,
    fetch_token_details (details (answering details_good NoAnswer))
    = Some token_data
    /\ request_text req
       = fst (generate_token_info demo_str_to_float demo_format_fixed
                demo_str_of_other (JDict (profile_of "abc")) token_data)
    /\ request_chat req = TELEGRAM_CHAT_ID demo_credentials
    /\ request_photo req
       = generate_plotly_graph demo_str_to_float demo_format_fixed
           demo_str_of_other
           (or_null
              (snd (generate_token_info demo_str_to_float demo_format_fixed
                      demo_str_of_other (JDict (profile_of "abc"))
                      token_data)))
           (JStr "abc") (image_ok (answering details_good NoAnswer))
    /\ (false = true <-> telegram (answering details_good NoAnswer) = Answer true).
Proof.
  intros step req.
  apply (post_carries_formatter_message demo_str_to_float demo_format_fixed
           demo_str_of_other demo_credentials empty_state
           (JDict (profile_of "abc")) (answering details_good NoAnswer)
           (trace (fst step)) (JStr "abc") req false).
  - reflexivity.
  - right. left. vm_compute. reflexivity.
Defined.

Lemma pass_counts_successful_posts_witness :
  exists evs,
    trace
      (fst (process_new_tokens demo_str_to_float demo_format_fixed
              demo_str_of_other demo_credentials [] []
              (pass_over_two details_good (Answer true))))
    = ([] ++ evs)%list
    /\ alerted evs <> [].
Proof.
  destruct (pass_counts_successful_posts demo_str_to_float demo_format_fixed
              demo_str_of_other demo_credentials [] []
              (pass_over_two details_good (Answer true)))
    as (evs & Ht & _ & _ & Hret).
  exists evs. split; [exact Ht|].
  apply (proj1 (Hret true ltac:(vm_compute; reflexivity))). reflexivity.
Defined.

(** A pass that posts for its first candidate and ends in an exception at
    its second: the counter is 1 and the address is known, and the pass
    returns nothing. *)
Example pass_raises_after_a_post :
  let inp :=
    mk_pass
      (Response true (Json (JList [JDict (profile_of "abc");
                                   JDict (profile_of "def")])))
      (fun i =>
         match i with
         | O => answering details_good (Answer true)
         | S _ => answering details_unparsable_liquidity (Answer true)
         end) in
  let result :=
    process_new_tokens demo_str_to_float demo_format_fixed demo_str_of_other
      demo_credentials [] [] inp in
  snd result = Raise ValueError
  /\ tokens_sent (fst result) = 1%nat
  /\ known_tokens (fst result) = [JStr "abc"].
Proof. repeat split; vm_compute; reflexivity. Qed.

Lemma known_tokens_cause_no_call_witness :
  py_in (event_address (FetchDetails (JStr "def"))) [JStr "abc"] = false.
Proof.
  apply (proj1 (known_tokens_cause_no_call demo_str_to_float
                  demo_format_fixed demo_str_of_other demo_credentials
                  [pass_over_two details_low_liquidity (Answer true)]
                  [JStr "abc"] [])
           [FetchDetails (JStr "def")]).
  - vm_compute. reflexivity.
  - left. reflexivity.
Defined.

Lemma calls_come_from_solana_profiles_witness :
  exists inp data tp,
    In inp [pass_over_two details_low_liquidity (Answer true)]
    /\ profiles inp = Response true (Json (JList data))
    /\ In (JDict tp) data
    /\ dict_get tp "chainId" JNull = JStr "solana"
    /\ event_address (FetchDetails (JStr "def"))
       = dict_get tp "tokenAddress" JNull
    /\ truthy (event_address (FetchDetails (JStr "def"))) = true.
Proof.
  apply (calls_come_from_solana_profiles demo_str_to_float demo_format_fixed
           demo_str_of_other demo_credentials
           [pass_over_two details_low_liquidity (Answer true)] [JStr "abc"] []
           [FetchDetails (JStr "def")]).
  - vm_compute. reflexivity.
  - left. reflexivity.
Defined.

Lemma pump_test_is_exact_witness :
  exists s, JStr "9xQeWvpUmP" = JStr s /\ ends_with_pump s.
Proof.
  apply (proj1 (pump_test_is_exact (JStr "9xQeWvpUmP"))). reflexivity.
Defined.

Lemma failed_feed_is_an_empty_pass_witness :
  let inp :=
    mk_pass (Response false (Json (JList [JDict (profile_of "abc")])))
      (fun _ => answering details_good (Answer true)) in
  fetch_token_profiles (profiles inp) = []
  /\ process_new_tokens demo_str_to_float demo_format_fixed demo_str_of_other
       demo_credentials [] [] inp
     = (mk_state [] 0 [], Ok false)
  /\ forall rest,
       main demo_str_to_float demo_format_fixed demo_str_of_other
         demo_credentials (inp :: rest) [] []
       = main demo_str_to_float demo_format_fixed demo_str_of_other
           demo_credentials rest [] [].
Proof.
  intros inp.
  apply (failed_feed_is_an_empty_pass demo_str_to_float demo_format_fixed
           demo_str_of_other demo_credentials [] [] inp).
  intros data. discriminate.
Defined.

Lemma fetched_details_have_pairs_witness :
  truthy (JDict [("pairs", JList [JDict chart_pair])]) = true
  /\ exists d x,
       JDict [("pairs", JList [JDict chart_pair])] = JDict d
       /\ lookup "pairs" d = Some x.
Proof.
  apply (proj1 (proj2 fetched_details_have_pairs)
           (Response false (Json (JDict chart_pair)))).
  reflexivity.
Defined.

Lemma bare_pair_is_its_own_main_pair_witness :
  exists token_data,
    fetch_token_details (Response true (Json (JDict chart_pair)))
    = Some token_data
    /\ get_main_pair demo_str_to_float token_data = Some (JDict chart_pair).
Proof.
  apply (bare_pair_is_its_own_main_pair demo_str_to_float true chart_pair).
  - reflexivity.
  - discriminate.
  - reflexivity.
Defined.

Lemma documents_without_a_pairs_list_witness :
  get_main_pair demo_str_to_float
    (JDict [("pairs", JNull); ("liquidity", JDict [("usd", JInt 7)])])
  = Some (JDict [("pairs", JNull); ("liquidity", JDict [("usd", JInt 7)])])
  /\ get_main_pair demo_str_to_float
       (JDict [("pairs", JNull);
               ("liquidity", JDict [("usd", JInt (10 ^ 400))])])
     = None.
Proof.
  split.
  - apply (proj2 (proj2 (documents_without_a_pairs_list demo_str_to_float
                           [("pairs", JNull);
                            ("liquidity", JDict [("usd", JInt 7)])]))
             JNull).
    + reflexivity.
    + intros l. discriminate.
  - apply (proj2 (proj2 (documents_without_a_pairs_list demo_str_to_float
                           [("pairs", JNull);
                            ("liquidity", JDict [("usd", JInt (10 ^ 400))])]))
             JNull).
    + reflexivity.
    + intros l. discriminate.
Defined.

Lemma links_section_is_built_by_entry_witness :
  format_links demo_str_of_other JNull = "".
Proof.
  apply (proj1 (proj2 (proj2
           (links_section_is_built_by_entry demo_str_of_other)))).
  intros l. discriminate.
Defined.

Lemma formatter_after_threshold_witness :
  let p :=
    JDict [("liquidity", JDict [("usd", JInt 6000)]); ("volume", JNull)] in
  exists d,
    p = JDict d
    /\ ((exists v pc,
           field_float demo_str_to_float d "volume" "h24" = Ok v
           /\ field_float demo_str_to_float d "priceChange" "h24" = Ok pc
           /\ generate_token_info demo_str_to_float demo_format_fixed
                demo_str_of_other (JDict (profile_of "abc"))
                details_null_volume
              = (format_message demo_format_fixed demo_str_of_other
                   (profile_of "abc")
                   (mk_risk (F64.of_Z 6000) v pc
                      (risk_formula (F64.of_Z 6000) v pc)
                      (min_100
                         (max_0 (risk_formula (F64.of_Z 6000) v pc
                                 * F64.of_Z 10)%f64))),
                 Some p))
        \/ ((exists e,
               field_float demo_str_to_float d "volume" "h24" = Raise e
               \/ field_float demo_str_to_float d "priceChange" "h24"
                  = Raise e)
            /\ generate_token_info demo_str_to_float demo_format_fixed
                 demo_str_of_other (JDict (profile_of "abc"))
                 details_null_volume
               = (MSG_RISK_ERROR, None))).
Proof.
  intros p.
  apply (formatter_after_threshold demo_str_to_float demo_format_fixed
           demo_str_of_other (profile_of "abc") details_null_volume p
           (F64.of_Z 6000)).
  - reflexivity.
  - vm_compute. reflexivity.
Defined.

Lemma chart_bars_are_coloured_by_sign_witness :
  let fig :=
    build_figure demo_format_fixed demo_str_of_other
      (map (fun tf => fst (window_or_zero demo_str_to_float chart_pair tf))
         time_frames)
      (map (fun tf => snd (window_or_zero demo_str_to_float chart_pair tf))
         time_frames)
      (JStr "abc") in
  List.length (bar_colors fig) = 4%nat
  /\ List.length (bar_text fig) = 4%nat
  /\ List.length (line_text fig) = 4%nat
  /\ title fig = "Performance: " ++ py_str demo_str_of_other (JStr "abc")
  /\ forall (i : nat) (v : spec_float),
       nth_error (bar_y fig) i = Some v ->
       nth_error (bar_colors fig) i
       = Some (if (F64.zero <=? v)%f64 then "#4CAF50" else "#F44336").
Proof.
  intros fig.
  apply (chart_bars_are_coloured_by_sign demo_str_to_float demo_format_fixed
           demo_str_of_other (JDict chart_pair) (JStr "abc") true fig).
  vm_compute. reflexivity.
Defined.

Lemma risk_ignores_direction_of_price_change_witness :
  exists r r',
    calculate_investment_risk demo_str_to_float example_pair = Some r
    /\ calculate_investment_risk demo_str_to_float
         (JDict [("liquidity", JDict [("usd", JInt 20000)]);
                 ("volume", JDict [("h24", JInt 50000)]);
                 ("priceChange", JDict [("h24", JInt (-10))])])
       = Some r'
    /\ risk_score r' = risk_score r
    /\ risk_percentage r' = risk_percentage r.
Proof.
  apply (risk_ignores_direction_of_price_change demo_str_to_float
           [("liquidity", JDict [("usd", JInt 20000)]);
            ("volume", JDict [("h24", JInt 50000)]);
            ("priceChange", JDict [("h24", JInt 10)])]
           [("liquidity", JDict [("usd", JInt 20000)]);
            ("volume", JDict [("h24", JInt 50000)]);
            ("priceChange", JDict [("h24", JInt (-10))])]
           (F64.of_Z 20000) (F64.of_Z 50000) (F64.of_Z 10));
    vm_compute; reflexivity.
Defined.

Lemma risk_percentage_is_a_number_witness :
  let r :=
    mk_risk (F64.of_Z 20000) (F64.of_Z 50000) (F64.of_Z 10)
      (F64.of_Z 5 / F64.of_Z 2)%f64 (F64.of_Z 25) in
  is_nan (risk_percentage r) = false
  /\ (is_nan (risk_score r) = true -> risk_percentage r = F64.zero).
Proof.
  intros r.
  apply (risk_percentage_is_a_number demo_str_to_float example_pair r).
  vm_compute. reflexivity.
Defined.

Lemma candidate_above_threshold_is_posted_witness :
  let a := answering details_good (Answer true) in
  let step :=
    process_token demo_str_to_float demo_format_fixed demo_str_of_other
      demo_credentials empty_state (JDict (profile_of "abc")) a in
  exists req,
    snd step = Ok tt
    /\ trace (fst step)
       = (trace empty_state
          ++ [FetchDetails (dict_get (profile_of "abc") "tokenAddress" JNull);
              Post (dict_get (profile_of "abc") "tokenAddress" JNull) req
                match telegram a with Answer true => true | _ => false end])%list
    /\ known_tokens (fst step)
       = match telegram a with
         | Answer true =>
             (known_tokens empty_state
              ++ [dict_get (profile_of "abc") "tokenAddress" JNull])%list
         | _ => known_tokens empty_state
         end
    /\ tokens_sent (fst step)
       = match telegram a with
         | Answer true => S (tokens_sent empty_state)
         | _ => tokens_sent empty_state
         end.
Proof.
  intros a step.
  apply (candidate_above_threshold_is_posted demo_str_to_float
           demo_format_fixed demo_str_of_other demo_credentials empty_state
           (profile_of "abc") a details_good (JDict chart_pair)
           (F64.of_Z 6000));
    try reflexivity; try discriminate.
Defined.

Lemma selection_ignores_entries_that_are_no_mappings_witness :
  get_main_pair demo_str_to_float (JDict [("pairs", JList three_pairs)])
  = get_main_pair demo_str_to_float
      (JDict [("pairs", JList (JStr "x" :: three_pairs))]).
Proof.
  apply (selection_ignores_entries_that_are_no_mappings demo_str_to_float
           [("pairs", JList (JStr "x" :: three_pairs))]
           [("pairs", JList three_pairs)] (JStr "x" :: three_pairs));
    reflexivity.
Defined.
